(** * GPUSparseMatrix: layout arithmetic and the cached non-zero count

    A shallow embedding of the inline members of
    [Source/Math/GPUSparseMatrix.h] (class [GPUSparseMatrix<ElemType>]):
    the buffer-size and sub-array-offset computations, the cache of the
    non-zero count, and the format-guarded accessors.

    Conventions.
    - [size_t] is a 64-bit unsigned integer: a [Z] reduced by [to_size_t]
      after every arithmetic operation.
    - [GPUSPARSE_INDEX_TYPE] is [int], a 32-bit signed integer (the header's
      layout comment declares the index arrays as [int colIdx[...]],
      [int rowIdxStart[...]], and [FetchNzCount] casts to [(int)]):
      conversions to it go through [to_int].
    - Pointers are 64-bit byte addresses; [p + n] on a [T*] advances by
      [sizeof(T) * n] bytes, modulo the address space.
    - A member function that can throw, assert or touch the mutable cache is
      a computation [M A] over the matrix state. *)

From Stdlib Require Import ZArith Lia Bool Morphisms Setoid.

Local Open Scope Z_scope.

(** ** Machine integers *)

Module Machine.

Definition SIZE_MODULUS : Z := 2 ^ 64.
Definition INT_MODULUS : Z := 2 ^ 32.
Definition INT_HALF : Z := 2 ^ 31.

(** Reduction of a mathematical integer to [size_t]. *)
Definition to_size_t (z : Z) : Z := z mod SIZE_MODULUS.

(** Conversion of an integer to the 32-bit signed [int]
    (two's complement truncation). *)
Definition to_int (z : Z) : Z := (z + INT_HALF) mod INT_MODULUS - INT_HALF.

(** [p + n] for a pointer [p] to elements of [size] bytes. *)
Definition ptr_add (p size n : Z) : Z := to_size_t (p + size * n).

(** Two integers that denote the same [size_t]. *)
Definition congruent (a b : Z) : Prop := to_size_t a = to_size_t b.

Definition in_size_t (z : Z) : Prop := 0 <= z < SIZE_MODULUS.
Definition in_int (z : Z) : Prop := - INT_HALF <= z < INT_HALF.

End Machine.

Import Machine.

(** ** Storage formats *)

(** Modelled from the spec: the enumeration [MatrixFormat] is declared in a
    header that is not part of the sources at hand.  The data model lists the
    formats a sparse matrix can have: CSR, CSC, SparseBlockCol,
    SparseBlockRow and COO.  The first four carry the enumerators' names used
    in [GPUSparseMatrix.h]; the header mentions the last only in a comment
    ("COO format"). *)
Inductive MatrixFormat : Type :=
| matrixFormatSparseCSC
| matrixFormatSparseCSR
| matrixFormatSparseBlockCol
| matrixFormatSparseBlockRow
| matrixFormatSparseCOO.

(** [format == other] on enumerators. *)
Definition MatrixFormat_eqb (a b : MatrixFormat) : bool :=
  match a, b with
  | matrixFormatSparseCSC, matrixFormatSparseCSC
  | matrixFormatSparseCSR, matrixFormatSparseCSR
  | matrixFormatSparseBlockCol, matrixFormatSparseBlockCol
  | matrixFormatSparseBlockRow, matrixFormatSparseBlockRow
  | matrixFormatSparseCOO, matrixFormatSparseCOO => true
  | _, _ => false
  end.

Infix "==?" := MatrixFormat_eqb (at level 70, no associativity).

(** The two compressed formats, and the two block formats. *)
Definition isCompressed (f : MatrixFormat) : bool :=
  (f ==? matrixFormatSparseCSC) || (f ==? matrixFormatSparseCSR).

Definition isBlock (f : MatrixFormat) : bool :=
  (f ==? matrixFormatSparseBlockCol) || (f ==? matrixFormatSparseBlockRow).

(** The formats for which the layout is defined. *)
Definition isLayoutFormat (f : MatrixFormat) : bool :=
  isCompressed f || isBlock f.

(** ** Faults *)

Inductive fault : Type :=
| NotImplemented      (* the NOT_IMPLEMENTED macro *)
| LogicErrorFault     (* a call of LogicError(...) *)
| AssertionFailure.   (* a failed assert(...), debug build *)

(** Outcome of a member that uses no object state. *)
Inductive result (A : Type) : Type :=
| Ok (a : A)
| Raise (f : fault).

Arguments Ok {A} a.
Arguments Raise {A} f.

Definition signalsNotImplemented {A : Type} (r : result A) : bool :=
  match r with
  | Raise NotImplemented => true
  | _ => false
  end.

(** ** The matrix object *)

(** The state the inline members read through the base-class accessors,
    the mutable cache field, and the device side as far as these members
    see it. *)
Record GPUSparseMatrix : Type := mkGPUSparseMatrix {
  GetNumRows : Z;            (* size_t *)
  GetNumCols : Z;            (* size_t *)
  GetFormat : MatrixFormat;
  GetBlockSize : Z;          (* size_t *)
  GetSizeAllocated : Z;      (* size_t: capacity of the value array *)
  m_sliceViewOffset : Z;     (* size_t *)
  Buffer : Z;                (* ElemType*: address of the allocation *)
  m_cachedNzCount : Z;       (* mutable GPUSPARSE_INDEX_TYPE *)
  deviceSecondaryIndex : Z -> Z;
                             (* the int SecondaryIndexValueAt(idx) reads *)
  deviceReads : nat          (* ghost: device-to-host reads issued so far *)
}.

Definition set_m_cachedNzCount (n : Z) (m : GPUSparseMatrix) : GPUSparseMatrix :=
  {| GetNumRows := GetNumRows m;
     GetNumCols := GetNumCols m;
     GetFormat := GetFormat m;
     GetBlockSize := GetBlockSize m;
     GetSizeAllocated := GetSizeAllocated m;
     m_sliceViewOffset := m_sliceViewOffset m;
     Buffer := Buffer m;
     m_cachedNzCount := n;
     deviceSecondaryIndex := deviceSecondaryIndex m;
     deviceReads := deviceReads m |}.

Definition set_m_sliceViewOffset (off : Z) (m : GPUSparseMatrix) : GPUSparseMatrix :=
  {| GetNumRows := GetNumRows m;
     GetNumCols := GetNumCols m;
     GetFormat := GetFormat m;
     GetBlockSize := GetBlockSize m;
     GetSizeAllocated := GetSizeAllocated m;
     m_sliceViewOffset := off;
     Buffer := Buffer m;
     m_cachedNzCount := m_cachedNzCount m;
     deviceSecondaryIndex := deviceSecondaryIndex m;
     deviceReads := deviceReads m |}.

Definition count_deviceRead (m : GPUSparseMatrix) : GPUSparseMatrix :=
  {| GetNumRows := GetNumRows m;
     GetNumCols := GetNumCols m;
     GetFormat := GetFormat m;
     GetBlockSize := GetBlockSize m;
     GetSizeAllocated := GetSizeAllocated m;
     m_sliceViewOffset := m_sliceViewOffset m;
     Buffer := Buffer m;
     m_cachedNzCount := m_cachedNzCount m;
     deviceSecondaryIndex := deviceSecondaryIndex m;
     deviceReads := S (deviceReads m) |}.

(** ** Computations over the matrix state *)

Inductive outcome (A : Type) : Type :=
| Returns (a : A) (m : GPUSparseMatrix)
| Throws (f : fault) (m : GPUSparseMatrix).

Arguments Returns {A} a m.
Arguments Throws {A} f m.

Definition M (A : Type) : Type := GPUSparseMatrix -> outcome A.

Definition ret {A : Type} (a : A) : M A := fun m => Returns a m.

Definition bind {A B : Type} (c : M A) (k : A -> M B) : M B :=
  fun m =>
    match c m with
    | Returns a m' => k a m'
    | Throws f m' => Throws f m'
    end.

Definition throw {A : Type} (f : fault) : M A := fun m => Throws f m.

Definition this : M GPUSparseMatrix := fun m => Returns m m.

Definition modify (g : GPUSparseMatrix -> GPUSparseMatrix) : M unit :=
  fun m => Returns tt (g m).

(** [assert(b)] of a debug build. *)
Definition assert (b : bool) : M unit :=
  fun m => if b then Returns tt m else Throws AssertionFailure m.

Declare Scope member_scope.
Delimit Scope member_scope with member.
Notation "x <- c ;; k" := (bind c (fun x => k))
  (at level 61, c at next level, right associativity) : member_scope.
Notation "c ;;; k" := (bind c (fun _ => k))
  (at level 61, right associativity) : member_scope.

Local Open Scope member_scope.

(** The state a computation ends in, and whether it returned. *)
Definition finalState {A : Type} (o : outcome A) : GPUSparseMatrix :=
  match o with
  | Returns _ m => m
  | Throws _ m => m
  end.

Definition returned {A : Type} (o : outcome A) : bool :=
  match o with
  | Returns _ _ => true
  | Throws _ _ => false
  end.

(** ** The cache of the non-zero count *)

Definition INVALID_NZ_COUNT : Z := -1.

(** Modelled from the spec: [SecondaryIndexValueAt] is declared in the header
    and defined elsewhere.  It yields the entry of the secondary index at
    [idx] as stored on the device, which takes a device-to-host read. *)
Definition SecondaryIndexValueAt (idx : Z) : M Z :=
  fun m => Returns (deviceSecondaryIndex m idx) (count_deviceRead m).

Definition FetchNzCount : M Z :=
  fun m =>
    if GetFormat m ==? matrixFormatSparseCSC then
      (hi <- SecondaryIndexValueAt (GetNumCols m) ;;
       lo <- SecondaryIndexValueAt 0 ;;
       ret (to_int (hi - lo))) m
    else if GetFormat m ==? matrixFormatSparseCSR then
      (hi <- SecondaryIndexValueAt (GetNumRows m) ;;
       lo <- SecondaryIndexValueAt 0 ;;
       ret (to_int (hi - lo))) m
    else if GetFormat m ==? matrixFormatSparseBlockCol then
      ret (to_int (to_size_t (GetNumRows m * GetBlockSize m))) m
    else
      throw NotImplemented m.

Definition HasCachedNzCount (m : GPUSparseMatrix) : bool :=
  negb (m_cachedNzCount m =? INVALID_NZ_COUNT).

Definition NzCount : M Z :=
  fun m =>
    ((if negb (HasCachedNzCount m)
      then (n <- FetchNzCount ;; modify (set_m_cachedNzCount n))
      else ret tt) ;;;
     (self <- this ;; ret (m_cachedNzCount self))) m.

Definition InvalidateCachedNzCount : M unit :=
  modify (set_m_cachedNzCount INVALID_NZ_COUNT).

(** [VerifyCachedNzCount] has two bodies selected by the preprocessor:
    the [#if 1] branch only mentions its argument, the [#else] branch
    re-fetches and compares. *)
Definition VerifyCachedNzCount_branch (verificationDisabled : bool) (nzCount : Z)
  : M unit :=
  if verificationDisabled then
    ret tt
  else
    (fetched <- FetchNzCount ;;
     if negb (fetched =? nzCount) then throw LogicErrorFault else ret tt).

(** The header selects the first branch ([#if 1]). *)
Definition verificationDisabled : bool := true.

Definition VerifyCachedNzCount (nzCount : Z) : M unit :=
  VerifyCachedNzCount_branch verificationDisabled nzCount.

Definition UpdateCachedNzCount_branch (disabled : bool) (nzCount : Z)
  (shouldVerify : bool) : M unit :=
  modify (set_m_cachedNzCount nzCount) ;;;
  (if shouldVerify
   then (self <- this ;; VerifyCachedNzCount_branch disabled (m_cachedNzCount self))
   else ret tt).

Definition UpdateCachedNzCount (nzCount : Z) (shouldVerify : bool) : M unit :=
  UpdateCachedNzCount_branch verificationDisabled nzCount shouldVerify.

(** The default argument [shouldVerify = true]. *)
Definition UpdateCachedNzCount_default (nzCount : Z) : M unit :=
  UpdateCachedNzCount nzCount true.

(** The two states of the cache as the interface shows them. *)
Inductive CacheState : Type :=
| Invalid
| Valid (n : Z).

Definition cacheState (m : GPUSparseMatrix) : CacheState :=
  if HasCachedNzCount m then Valid (m_cachedNzCount m) else Invalid.

(** ** Layout of the packed buffer *)

(** [sizeof(GPUSPARSE_INDEX_TYPE)].  The macro is defined outside this
    header; the header's layout comment gives the index arrays the type
    [int] ([int colIdx[m_elemSizeAllocated]], [int rowIdxStart[m_numRows+1]]),
    of four bytes. *)
Definition sizeof_GPUSPARSE_INDEX_TYPE : Z := 4.

Section Layout.

(** [sizeof(ElemType)] of the class template's parameter. *)
Variable sizeof_ElemType : Z.

(** The test [GetFormat() & matrixFormatRowMajor]; the flag's bit is part
    of the enumeration's declaration. *)
Variable hasRowMajorFlag : MatrixFormat -> bool.

Definition MajorIndexLocation (m : GPUSparseMatrix) : Z :=
  ptr_add (Buffer m) sizeof_ElemType (GetSizeAllocated m).

Definition MajorIndexCount (numRows numCols numNZ : Z) (format : MatrixFormat) : Z :=
  if format ==? matrixFormatSparseBlockCol then numCols
  else if format ==? matrixFormatSparseBlockRow then numRows
  else numNZ.

(** The overload without arguments; [NzCount()] is converted from [int]
    to [size_t]. *)
Definition MajorIndexCount_this : M Z :=
  nz <- NzCount ;;
  self <- this ;;
  ret (MajorIndexCount (GetNumRows self) (GetNumCols self) (to_size_t nz)
         (GetFormat self)).

Definition MajorIndexSize : M Z :=
  count <- MajorIndexCount_this ;;
  ret (to_size_t (sizeof_GPUSPARSE_INDEX_TYPE * count)).

Definition ComputeMaxNZElemFromBufferSize
  (numRows numCols bufferSize : Z) (format : MatrixFormat) : result Z :=
  if format ==? matrixFormatSparseBlockCol then
    Ok (to_size_t (bufferSize
                   - to_size_t (to_size_t (2 * sizeof_GPUSPARSE_INDEX_TYPE) * numCols))
        / sizeof_ElemType)
  else if format ==? matrixFormatSparseBlockRow then
    Ok (to_size_t (bufferSize
                   - to_size_t (to_size_t (2 * sizeof_GPUSPARSE_INDEX_TYPE) * numRows))
        / sizeof_ElemType)
  else if format ==? matrixFormatSparseCSC then
    Ok (to_size_t (bufferSize
                   - to_size_t (sizeof_GPUSPARSE_INDEX_TYPE * to_size_t (numCols + 1)))
        / to_size_t (sizeof_GPUSPARSE_INDEX_TYPE + sizeof_ElemType))
  else if format ==? matrixFormatSparseCSR then
    Ok (to_size_t (bufferSize
                   - to_size_t (sizeof_GPUSPARSE_INDEX_TYPE * to_size_t (numRows + 1)))
        / to_size_t (sizeof_GPUSPARSE_INDEX_TYPE + sizeof_ElemType))
  else
    Raise NotImplemented.

Definition SecondaryIndexLocation (m : GPUSparseMatrix) : Z :=
  if GetFormat m ==? matrixFormatSparseBlockCol then
    ptr_add (MajorIndexLocation m) sizeof_GPUSPARSE_INDEX_TYPE (GetNumCols m)
  else if GetFormat m ==? matrixFormatSparseBlockRow then
    ptr_add (MajorIndexLocation m) sizeof_GPUSPARSE_INDEX_TYPE (GetNumRows m)
  else (* CSR or CSC *)
    ptr_add
      (ptr_add (Buffer m) 1
         (to_size_t (to_size_t (sizeof_ElemType + sizeof_GPUSPARSE_INDEX_TYPE)
                     * GetSizeAllocated m)))
      sizeof_GPUSPARSE_INDEX_TYPE (m_sliceViewOffset m).

Definition SecondaryIndexCount
  (numRows numCols numNZReserved : Z) (format : MatrixFormat) : Z :=
  if format ==? matrixFormatSparseBlockCol then numCols
  else if format ==? matrixFormatSparseBlockRow then numRows
  else if format ==? matrixFormatSparseCSC then to_size_t (numCols + 1)
  else if format ==? matrixFormatSparseCSR then to_size_t (numRows + 1)
  else numNZReserved. (* COO format *)

Definition SecondaryIndexCount_this (m : GPUSparseMatrix) : Z :=
  SecondaryIndexCount (GetNumRows m) (GetNumCols m) (GetSizeAllocated m) (GetFormat m).

Definition SecondaryIndexSize (m : GPUSparseMatrix) : Z :=
  to_size_t (SecondaryIndexCount_this m * sizeof_GPUSPARSE_INDEX_TYPE).

Definition BufferSizeNeeded (numRows numCols numNZ : Z) (format : MatrixFormat) : Z :=
  to_size_t
    (to_size_t (sizeof_ElemType * numNZ)
     + to_size_t (sizeof_GPUSPARSE_INDEX_TYPE
                  * to_size_t (MajorIndexCount numRows numCols numNZ format
                               + SecondaryIndexCount numRows numCols numNZ format))).

(** The address of the first non-zero value: for CSC and CSR the buffer
    advanced by the first entry of the secondary index. *)
Definition Data : M Z :=
  self <- this ;;
  first <- (if (GetFormat self ==? matrixFormatSparseCSC)
               || (GetFormat self ==? matrixFormatSparseCSR)
            then SecondaryIndexValueAt 0 (* CSC or CSR *)
            else ret 0 (* others *)) ;;
  ret (ptr_add (Buffer self) sizeof_ElemType first).

Definition NzValues : M Z := Data.


(** *** Accessors guarded by an assertion on the format *)

Definition RowLocation : M Z :=
  self <- this ;;
  assert ((GetFormat self ==? matrixFormatSparseCSC)
          || (GetFormat self ==? matrixFormatSparseCSR)) ;;;
  ret (if hasRowMajorFlag (GetFormat self)
       then SecondaryIndexLocation self (* CSR *)
       else MajorIndexLocation self (* CSC *)).

Definition RowSize : M Z :=
  self <- this ;;
  assert ((GetFormat self ==? matrixFormatSparseCSC)
          || (GetFormat self ==? matrixFormatSparseCSR)) ;;;
  if hasRowMajorFlag (GetFormat self)
  then ret (SecondaryIndexSize self) (* CSR *)
  else MajorIndexSize (* CSC *).

Definition ColLocation : M Z :=
  self <- this ;;
  assert ((GetFormat self ==? matrixFormatSparseCSC)
          || (GetFormat self ==? matrixFormatSparseCSR)) ;;;
  ret (if hasRowMajorFlag (GetFormat self)
       then MajorIndexLocation self (* CSR *)
       else SecondaryIndexLocation self (* CSC *)).

Definition ColSize : M Z :=
  self <- this ;;
  assert ((GetFormat self ==? matrixFormatSparseCSC)
          || (GetFormat self ==? matrixFormatSparseCSR)) ;;;
  if hasRowMajorFlag (GetFormat self)
  then MajorIndexSize
  else ret (SecondaryIndexSize self).

Definition BlockId2ColOrRow : M Z :=
  self <- this ;;
  assert ((GetFormat self ==? matrixFormatSparseBlockCol)
          || (GetFormat self ==? matrixFormatSparseBlockRow)) ;;;
  ret (MajorIndexLocation self).

Definition ColOrRow2BlockId : M Z :=
  self <- this ;;
  assert ((GetFormat self ==? matrixFormatSparseBlockCol)
          || (GetFormat self ==? matrixFormatSparseBlockRow)) ;;;
  ret (SecondaryIndexLocation self).

(** *** Sizes in use and sizes allocated *)

(** [sizeof(ElemType) * NzCount()]: the [int] count is converted to
    [size_t] before the product. *)
Definition NzBytes : M Z :=
  nz <- NzCount ;;
  ret (to_size_t (sizeof_ElemType * to_size_t nz)).

(** [NzCount()] returned as a [size_t]. *)
Definition GetNumNZElements : M Z :=
  nz <- NzCount ;;
  ret (to_size_t nz).

Definition GetNumElemAllocated (m : GPUSparseMatrix) : Z :=
  GetSizeAllocated m.

Definition GetSizeElemAllocated (m : GPUSparseMatrix) : Z :=
  to_size_t (sizeof_ElemType * GetSizeAllocated m).

(** *** The layout in the words of the specification *)

(** Length of the major index array, where the specification gives one. *)
Definition spec_majorCount (numRows numCols nnz : Z) (format : MatrixFormat)
  : option Z :=
  match format with
  | matrixFormatSparseCSR | matrixFormatSparseCSC => Some nnz
  | matrixFormatSparseBlockCol => Some numCols
  | matrixFormatSparseBlockRow => Some numRows
  | matrixFormatSparseCOO => None
  end.

(** Length of the secondary index array, where the specification gives one. *)
Definition spec_secondaryCount (numRows numCols : Z) (format : MatrixFormat)
  : option Z :=
  match format with
  | matrixFormatSparseCSR => Some (numRows + 1)
  | matrixFormatSparseCSC => Some (numCols + 1)
  | matrixFormatSparseBlockCol => Some numCols
  | matrixFormatSparseBlockRow => Some numRows
  | matrixFormatSparseCOO => None
  end.

(** [sizeof(value)*nnz + sizeof(index)*(majorCount + secondaryCount)]
    over the integers. *)
Definition spec_bufferSize (numRows numCols nnz : Z) (format : MatrixFormat)
  : option Z :=
  match spec_majorCount numRows numCols nnz format,
        spec_secondaryCount numRows numCols format with
  | Some major, Some secondary =>
      Some (sizeof_ElemType * nnz
            + sizeof_GPUSPARSE_INDEX_TYPE * (major + secondary))
  | _, _ => None
  end.

(** Bytes per reserved non-zero that [ComputeMaxNZElemFromBufferSize]
    divides by, and the bytes it divides, for the four layout formats. *)
Definition bytesPerNZ (format : MatrixFormat) : Z :=
  if isBlock format then sizeof_ElemType
  else sizeof_GPUSPARSE_INDEX_TYPE + sizeof_ElemType.

Definition fixedIndexBytes (numRows numCols : Z) (format : MatrixFormat) : Z :=
  match format with
  | matrixFormatSparseBlockCol => 2 * sizeof_GPUSPARSE_INDEX_TYPE * numCols
  | matrixFormatSparseBlockRow => 2 * sizeof_GPUSPARSE_INDEX_TYPE * numRows
  | matrixFormatSparseCSC => sizeof_GPUSPARSE_INDEX_TYPE * (numCols + 1)
  | matrixFormatSparseCSR => sizeof_GPUSPARSE_INDEX_TYPE * (numRows + 1)
  | matrixFormatSparseCOO => 0
  end.

End Layout.

(** ** Observations on states and outcomes *)

(** Two states of one matrix: they agree on everything but the cached count
    and the counter of device reads. *)
Definition sameMatrix (m m' : GPUSparseMatrix) : Prop :=
  GetNumRows m' = GetNumRows m
  /\ GetNumCols m' = GetNumCols m
  /\ GetFormat m' = GetFormat m
  /\ GetBlockSize m' = GetBlockSize m
  /\ GetSizeAllocated m' = GetSizeAllocated m
  /\ m_sliceViewOffset m' = m_sliceViewOffset m
  /\ Buffer m' = Buffer m
  /\ deviceSecondaryIndex m' = deviceSecondaryIndex m.

(** What a call yields, the state left aside. *)
Definition valueOf {A : Type} (o : outcome A) : result A :=
  match o with
  | Returns a _ => Ok a
  | Throws f _ => Raise f
  end.


(** ** Sample matrices *)

(** A 3x3 CSC matrix with four non-zeros in a buffer that holds four:
    columns start at non-zero 0, 2 and 3. *)
Definition sampleCSC : GPUSparseMatrix :=
  {| GetNumRows := 3;
     GetNumCols := 3;
     GetFormat := matrixFormatSparseCSC;
     GetBlockSize := 0;
     GetSizeAllocated := 4;
     m_sliceViewOffset := 0;
     Buffer := 4096;
     m_cachedNzCount := INVALID_NZ_COUNT;
     deviceSecondaryIndex :=
       (fun idx => match idx with 0 => 0 | 1 => 2 | 2 => 3 | 3 => 4 | _ => 0 end);
     deviceReads := 0 |}.

(** The view of column 1 of [sampleCSC]: same buffer, one column, the
    secondary index seen one entry further. *)
Definition sampleSlice : GPUSparseMatrix :=
  {| GetNumRows := 3;
     GetNumCols := 1;
     GetFormat := matrixFormatSparseCSC;
     GetBlockSize := 0;
     GetSizeAllocated := 4;
     m_sliceViewOffset := 1;
     Buffer := 4096;
     m_cachedNzCount := INVALID_NZ_COUNT;
     deviceSecondaryIndex :=
       (fun idx => deviceSecondaryIndex sampleCSC (idx + 1));
     deviceReads := 0 |}.

(** The same matrix stored by rows. *)
Definition sampleCSR : GPUSparseMatrix :=
  {| GetNumRows := 3;
     GetNumCols := 3;
     GetFormat := matrixFormatSparseCSR;
     GetBlockSize := 0;
     GetSizeAllocated := 4;
     m_sliceViewOffset := 0;
     Buffer := 4096;
     m_cachedNzCount := 4;
     deviceSecondaryIndex :=
       (fun idx => match idx with 0 => 0 | 1 => 1 | 2 => 3 | 3 => 4 | _ => 0 end);
     deviceReads := 0 |}.

(** A 3x5 block-column matrix with two stored columns. *)
Definition sampleBlockCol : GPUSparseMatrix :=
  {| GetNumRows := 3;
     GetNumCols := 5;
     GetFormat := matrixFormatSparseBlockCol;
     GetBlockSize := 2;
     GetSizeAllocated := 6;
     m_sliceViewOffset := 0;
     Buffer := 4096;
     m_cachedNzCount := INVALID_NZ_COUNT;
     deviceSecondaryIndex := (fun _ => 0);
     deviceReads := 0 |}.

(** A 5x3 block-row matrix with two stored rows. *)
Definition sampleBlockRow : GPUSparseMatrix :=
  {| GetNumRows := 5;
     GetNumCols := 3;
     GetFormat := matrixFormatSparseBlockRow;
     GetBlockSize := 2;
     GetSizeAllocated := 6;
     m_sliceViewOffset := 0;
     Buffer := 4096;
     m_cachedNzCount := INVALID_NZ_COUNT;
     deviceSecondaryIndex := (fun _ => 0);
     deviceReads := 0 |}.

(** A block-column matrix of 65537 rows and 65535 stored columns: its
    [2^32 - 1] values are one more than the [int] count can tell from -1. *)
Definition sampleBlockColWide : GPUSparseMatrix :=
  {| GetNumRows := 65537;
     GetNumCols := 65535;
     GetFormat := matrixFormatSparseBlockCol;
     GetBlockSize := 65535;
     GetSizeAllocated := 4294967295;
     m_sliceViewOffset := 0;
     Buffer := 4096;
     m_cachedNzCount := INVALID_NZ_COUNT;
     deviceSecondaryIndex := (fun _ => 0);
     deviceReads := 0 |}.

(** A block-column matrix of 50000 rows and 50000 stored columns. *)
Definition sampleBlockColLarge : GPUSparseMatrix :=
  {| GetNumRows := 50000;
     GetNumCols := 50000;
     GetFormat := matrixFormatSparseBlockCol;
     GetBlockSize := 50000;
     GetSizeAllocated := 2500000000;
     m_sliceViewOffset := 0;
     Buffer := 4096;
     m_cachedNzCount := INVALID_NZ_COUNT;
     deviceSecondaryIndex := (fun _ => 0);
     deviceReads := 0 |}.

(** [sizeof(float)], and the row-major flag as the accessors' comments give
    it: set for CSR, clear for CSC. *)
Definition sizeof_float : Z := 4.

Definition sampleRowMajorFlag (f : MatrixFormat) : bool :=
  match f with
  | matrixFormatSparseCSR => true
  | _ => false
  end.

(** * Properties *)

(** ** Machine arithmetic *)

Module MachineFacts.

Lemma SIZE_MODULUS_pos : 0 < SIZE_MODULUS.
Proof. reflexivity. Qed.

Lemma to_size_t_range (z : Z) : in_size_t (to_size_t z).
Proof. apply Z.mod_pos_bound, SIZE_MODULUS_pos. Qed.

Lemma to_size_t_small (z : Z) : in_size_t z -> to_size_t z = z.
Proof. intros H. apply Z.mod_small, H. Qed.

Lemma to_size_t_idem (z : Z) : to_size_t (to_size_t z) = to_size_t z.
Proof. apply Zmod_mod. Qed.

Lemma to_int_range (z : Z) : in_int (to_int z).
Proof.
  unfold in_int, to_int.
  assert (H : 0 <= (z + INT_HALF) mod INT_MODULUS < INT_MODULUS)
    by (apply Z.mod_pos_bound; reflexivity).
  change INT_MODULUS with (2 * INT_HALF) in *.
  lia.
Qed.

Lemma to_int_small (z : Z) : in_int z -> to_int z = z.
Proof.
  unfold in_int, to_int. intros H.
  rewrite Z.mod_small; [lia |].
  change INT_MODULUS with (2 * INT_HALF). lia.
Qed.

(** A count that fits [int] survives the trip through [size_t]. *)
Lemma to_int_to_size_t_small (z : Z) :
  0 <= z < INT_HALF -> to_int (to_size_t z) = z.
Proof.
  intros H. rewrite to_size_t_small, to_int_small; trivial.
  - unfold in_int. lia.
  - unfold in_size_t.
    assert (INT_HALF < SIZE_MODULUS) by reflexivity. lia.
Qed.

(** [size_t] arithmetic is arithmetic modulo [SIZE_MODULUS]: reductions
    under [+], [-] and [*] can be dropped. *)
#[global] Instance congruent_Equivalence : Equivalence congruent.
Proof. split; unfold congruent; congruence. Qed.

#[global] Instance add_congruent :
  Proper (congruent ==> congruent ==> congruent) Z.add.
Proof.
  unfold congruent, to_size_t. intros a b Hab c d Hcd.
  rewrite (Zplus_mod a), (Zplus_mod b), Hab, Hcd. reflexivity.
Qed.

#[global] Instance sub_congruent :
  Proper (congruent ==> congruent ==> congruent) Z.sub.
Proof.
  unfold congruent, to_size_t. intros a b Hab c d Hcd.
  rewrite (Zminus_mod a), (Zminus_mod b), Hab, Hcd. reflexivity.
Qed.

#[global] Instance mul_congruent :
  Proper (congruent ==> congruent ==> congruent) Z.mul.
Proof.
  unfold congruent, to_size_t. intros a b Hab c d Hcd.
  rewrite (Zmult_mod a), (Zmult_mod b), Hab, Hcd. reflexivity.
Qed.

#[global] Instance congruent_congruent :
  Proper (congruent ==> congruent ==> iff) congruent.
Proof.
  unfold congruent. intros a b Hab c d Hcd. rewrite Hab, Hcd. reflexivity.
Qed.

#[global] Instance to_size_t_Proper : Proper (congruent ==> eq) to_size_t.
Proof. intros a b Hab. exact Hab. Qed.

Lemma to_size_t_congruent (z : Z) : congruent (to_size_t z) z.
Proof. apply to_size_t_idem. Qed.

Lemma congruent_to_size_t (a b : Z) :
  congruent a b -> to_size_t a = to_size_t b.
Proof. trivial. Qed.

#[global] Opaque congruent.
#[global] Typeclasses Opaque congruent.

End MachineFacts.

Import MachineFacts.

(** Two [size_t] values are equal when they agree before any reduction. *)
Ltac size_t_eq :=
  unfold ptr_add;
  apply congruent_to_size_t;
  rewrite ?to_size_t_congruent;
  match goal with
  | |- congruent ?a ?b => replace a with b by ring; reflexivity
  end.

(** ** Formats *)

Lemma MatrixFormat_eqb_eq (a b : MatrixFormat) : (a ==? b) = true <-> a = b.
Proof. destruct a, b; simpl; split; congruence. Qed.

Lemma isLayoutFormat_cases (f : MatrixFormat) :
  isLayoutFormat f = true <->
  f = matrixFormatSparseCSR \/ f = matrixFormatSparseCSC \/
  f = matrixFormatSparseBlockCol \/ f = matrixFormatSparseBlockRow.
Proof.
  destruct f; simpl; split; intros H; auto;
    try discriminate; repeat (destruct H as [H | H]); discriminate.
Qed.

Lemma isLayoutFormat_false (f : MatrixFormat) :
  isLayoutFormat f = false <-> f = matrixFormatSparseCOO.
Proof. destruct f; cbv; split; intros H; congruence. Qed.

(** ** The cache of the non-zero count *)

Section CacheFacts.

Implicit Types (m : GPUSparseMatrix) (n : Z).

Lemma HasCachedNzCount_set n m :
  HasCachedNzCount (set_m_cachedNzCount n m) = negb (n =? INVALID_NZ_COUNT).
Proof. reflexivity. Qed.

Lemma cacheState_set n m :
  cacheState (set_m_cachedNzCount n m)
  = if n =? INVALID_NZ_COUNT then Invalid else Valid n.
Proof.
  unfold cacheState. rewrite HasCachedNzCount_set.
  destruct (n =? INVALID_NZ_COUNT); reflexivity.
Qed.

Lemma cacheState_Invalid m :
  cacheState m = Invalid <-> HasCachedNzCount m = false.
Proof.
  unfold cacheState. destruct (HasCachedNzCount m); split; congruence.
Qed.

Lemma HasCachedNzCount_true m :
  HasCachedNzCount m = true <-> m_cachedNzCount m <> INVALID_NZ_COUNT.
Proof.
  unfold HasCachedNzCount.
  destruct (Z.eqb_spec (m_cachedNzCount m) INVALID_NZ_COUNT); simpl;
    split; congruence.
Qed.

(** A fetch reads the device and leaves the host-side fields alone. *)
Lemma FetchNzCount_preserves_cache m :
  m_cachedNzCount (finalState (FetchNzCount m)) = m_cachedNzCount m.
Proof.
  unfold FetchNzCount. destruct (GetFormat m); reflexivity.
Qed.

Lemma FetchNzCount_preserves_format m :
  GetFormat (finalState (FetchNzCount m)) = GetFormat m.
Proof.
  unfold FetchNzCount. destruct m as [r c f b a o p k d e].
  destruct f; reflexivity.
Qed.


(** What a fetch yields does not depend on what the cache holds. *)
Lemma FetchNzCount_cache_independent n m :
  FetchNzCount (set_m_cachedNzCount n m)
  = match FetchNzCount m with
    | Returns k m1 => Returns k (set_m_cachedNzCount n m1)
    | Throws f m1 => Throws f (set_m_cachedNzCount n m1)
    end.
Proof.
  unfold FetchNzCount. destruct m as [r c f b a o p k d e].
  destruct f; reflexivity.
Qed.

Lemma FetchNzCount_returns m :
  returned (FetchNzCount m) = true <->
  isCompressed (GetFormat m) = true
  \/ GetFormat m = matrixFormatSparseBlockCol.
Proof.
  unfold FetchNzCount.
  destruct (GetFormat m); simpl; split; intros H; auto;
    try discriminate; destruct H; discriminate.
Qed.

Lemma NzCount_invalid_returns m n m1 :
  HasCachedNzCount m = false ->
  FetchNzCount m = Returns n m1 ->
  NzCount m = Returns n (set_m_cachedNzCount n m1).
Proof.
  intros Hc Hf. unfold NzCount, bind. rewrite Hc. simpl.
  unfold bind. rewrite Hf. reflexivity.
Qed.

Lemma NzCount_invalid_throws m f m1 :
  HasCachedNzCount m = false ->
  FetchNzCount m = Throws f m1 ->
  NzCount m = Throws f m1.
Proof.
  intros Hc Hf. unfold NzCount, bind. rewrite Hc. simpl.
  unfold bind. rewrite Hf. reflexivity.
Qed.

Lemma NzCount_valid m :
  HasCachedNzCount m = true ->
  NzCount m = Returns (m_cachedNzCount m) m.
Proof.
  intros Hc. unfold NzCount, bind. rewrite Hc. reflexivity.
Qed.

Lemma NzCount_returns m :
  isCompressed (GetFormat m) = true ->
  exists n m1, NzCount m = Returns n m1 /\ GetFormat m1 = GetFormat m.
Proof.
  intros Hf. destruct (HasCachedNzCount m) eqn:Hc.
  - exists (m_cachedNzCount m), m. split; [apply NzCount_valid, Hc | reflexivity].
  - destruct (FetchNzCount m) as [n m1 | f m1] eqn:Hfetch.
    + exists n, (set_m_cachedNzCount n m1).
      split; [apply NzCount_invalid_returns; assumption |].
      change (GetFormat m1 = GetFormat m).
      rewrite <- (FetchNzCount_preserves_format m), Hfetch. reflexivity.
    + assert (Hr : returned (FetchNzCount m) = true)
        by (apply FetchNzCount_returns; left; exact Hf).
      rewrite Hfetch in Hr. discriminate.
Qed.

(** After an invalidation [NzCount] yields what a fetch yields. *)
Lemma NzCount_after_invalidation m :
  NzCount (set_m_cachedNzCount INVALID_NZ_COUNT m)
  = match FetchNzCount m with
    | Returns n m1 => Returns n (set_m_cachedNzCount n m1)
    | Throws f m1 => Throws f (set_m_cachedNzCount INVALID_NZ_COUNT m1)
    end.
Proof.
  pose proof (FetchNzCount_cache_independent INVALID_NZ_COUNT m) as Hi.
  destruct (FetchNzCount m) as [n m1 | f m1].
  - rewrite (NzCount_invalid_returns
               (set_m_cachedNzCount INVALID_NZ_COUNT m) n _ eq_refl Hi).
    reflexivity.
  - apply (NzCount_invalid_throws
             (set_m_cachedNzCount INVALID_NZ_COUNT m) _ _ eq_refl Hi).
Qed.

End CacheFacts.

(** C1, as the code has it.  The cache has two states.  In state Invalid,
    [NzCount] runs the fetch, stores the fetched count in the cache and
    returns it (a fault of the fetch is passed on); the cache then reads as
    Valid with that count unless the count is [INVALID_NZ_COUNT], which is
    returned all the same and leaves the cache Invalid.  In state
    Valid, [NzCount] returns the cached count and leaves the whole state,
    the device-read counter included, as it was.
    [InvalidateCachedNzCount] puts the cache in state Invalid, and the
    [NzCount] that follows returns what a fetch yields, whatever the cache
    held before. *)
Theorem NzCount_two_state_discipline (m : GPUSparseMatrix) :
  (cacheState m = Invalid ->
   (forall n m1,
       FetchNzCount m = Returns n m1 ->
       NzCount m = Returns n (set_m_cachedNzCount n m1)
       /\ m_cachedNzCount (set_m_cachedNzCount n m1) = n
       /\ cacheState (set_m_cachedNzCount n m1)
          = (if n =? INVALID_NZ_COUNT then Invalid else Valid n))
   /\ (forall f m1,
          FetchNzCount m = Throws f m1 -> NzCount m = Throws f m1))
  /\ (forall n, cacheState m = Valid n -> NzCount m = Returns n m)
  /\ InvalidateCachedNzCount m
     = Returns tt (set_m_cachedNzCount INVALID_NZ_COUNT m)
  /\ cacheState (set_m_cachedNzCount INVALID_NZ_COUNT m) = Invalid
  /\ NzCount (set_m_cachedNzCount INVALID_NZ_COUNT m)
     = match FetchNzCount m with
       | Returns n m1 => Returns n (set_m_cachedNzCount n m1)
       | Throws f m1 => Throws f (set_m_cachedNzCount INVALID_NZ_COUNT m1)
       end
  /\ (forall stale,
         NzCount (finalState
                    (InvalidateCachedNzCount (set_m_cachedNzCount stale m)))
         = NzCount (finalState (InvalidateCachedNzCount m))).
Proof.
  repeat apply conj.
  - intros Hinv. apply cacheState_Invalid in Hinv. split.
    + intros n m1 Hf. repeat apply conj.
      * apply NzCount_invalid_returns; assumption.
      * reflexivity.
      * apply cacheState_set.
    + intros f m1 Hf. apply NzCount_invalid_throws; assumption.
  - intros n Hv. unfold cacheState in Hv.
    destruct (HasCachedNzCount m) eqn:Hc; [| discriminate].
    inversion Hv; subst n. apply NzCount_valid, Hc.
  - reflexivity.
  - reflexivity.
  - apply NzCount_after_invalidation.
  - reflexivity.
Qed.

(** C2, as the code has it.  The count [FetchNzCount] yields, by format:
    for CSC the difference
    of the secondary index at [numCols] and at 0, for CSR the difference at
    [numRows] and at 0, for SparseBlockCol the product of [numRows] and the
    block size, each as a value of the index type [int]; for SparseBlockRow
    and COO the fetch throws "not implemented".  A difference or product
    that fits [int] is yielded as it is; one that does not is cut to its low
    32 bits. *)
Theorem FetchNzCount_by_format (m : GPUSparseMatrix) :
  match GetFormat m with
  | matrixFormatSparseCSC =>
      FetchNzCount m
      = Returns (to_int (deviceSecondaryIndex m (GetNumCols m)
                         - deviceSecondaryIndex m 0))
          (count_deviceRead (count_deviceRead m))
      /\ (in_int (deviceSecondaryIndex m (GetNumCols m)
                  - deviceSecondaryIndex m 0) ->
          FetchNzCount m
          = Returns (deviceSecondaryIndex m (GetNumCols m)
                     - deviceSecondaryIndex m 0)
              (count_deviceRead (count_deviceRead m)))
  | matrixFormatSparseCSR =>
      FetchNzCount m
      = Returns (to_int (deviceSecondaryIndex m (GetNumRows m)
                         - deviceSecondaryIndex m 0))
          (count_deviceRead (count_deviceRead m))
      /\ (in_int (deviceSecondaryIndex m (GetNumRows m)
                  - deviceSecondaryIndex m 0) ->
          FetchNzCount m
          = Returns (deviceSecondaryIndex m (GetNumRows m)
                     - deviceSecondaryIndex m 0)
              (count_deviceRead (count_deviceRead m)))
  | matrixFormatSparseBlockCol =>
      FetchNzCount m
      = Returns (to_int (to_size_t (GetNumRows m * GetBlockSize m))) m
      /\ (0 <= GetNumRows m * GetBlockSize m < INT_HALF ->
          FetchNzCount m = Returns (GetNumRows m * GetBlockSize m) m)
  | matrixFormatSparseBlockRow | matrixFormatSparseCOO =>
      FetchNzCount m = Throws NotImplemented m
  end.
Proof.
  unfold FetchNzCount.
  destruct (GetFormat m); simpl; try reflexivity; split; try reflexivity;
    intros H; unfold bind, SecondaryIndexValueAt, ret; simpl.
  - rewrite to_int_small by exact H. reflexivity.
  - rewrite to_int_small by exact H. reflexivity.
  - rewrite to_int_to_size_t_small by exact H. reflexivity.
Qed.

(** The two texts of [VerifyCachedNzCount] side by side.  With the one the
    header selects ([#if 1]) [UpdateCachedNzCount(n, verify)] stores [n] and
    returns without a device read.  The text kept under [#else], which no
    build contains, would fetch the count again, compare it with the cached
    one and throw a logic error when they differ.  Under either text the
    cache holds [n] afterwards. *)
Theorem UpdateCachedNzCount_sets_cache (n : Z) (shouldVerify : bool)
  (m : GPUSparseMatrix) :
  UpdateCachedNzCount n shouldVerify m = Returns tt (set_m_cachedNzCount n m)
  /\ UpdateCachedNzCount_default n m = Returns tt (set_m_cachedNzCount n m)
  /\ deviceReads (finalState (UpdateCachedNzCount n shouldVerify m))
     = deviceReads m
  /\ verificationDisabled = true
  /\ UpdateCachedNzCount_branch false n true m
     = match FetchNzCount (set_m_cachedNzCount n m) with
       | Returns fetched m1 =>
           if fetched =? n then Returns tt m1 else Throws LogicErrorFault m1
       | Throws f m1 => Throws f m1
       end
  /\ UpdateCachedNzCount_branch false n false m
     = Returns tt (set_m_cachedNzCount n m)
  /\ (forall disabled,
         m_cachedNzCount
           (finalState (UpdateCachedNzCount_branch disabled n shouldVerify m))
         = n).
Proof.
  assert (Hsrc : forall v, UpdateCachedNzCount n v m
                           = Returns tt (set_m_cachedNzCount n m))
    by (intros [|]; reflexivity).
  assert (Hverify : UpdateCachedNzCount_branch false n true m
     = match FetchNzCount (set_m_cachedNzCount n m) with
       | Returns fetched m1 =>
           if fetched =? n then Returns tt m1 else Throws LogicErrorFault m1
       | Throws f m1 => Throws f m1
       end).
  { unfold UpdateCachedNzCount_branch, VerifyCachedNzCount_branch, bind, modify,
      this. simpl.
    destruct (FetchNzCount (set_m_cachedNzCount n m)) as [k m1 | f m1];
      [destruct (k =? n) |]; reflexivity. }
  repeat apply conj.
  - apply Hsrc.
  - apply Hsrc.
  - rewrite Hsrc. reflexivity.
  - reflexivity.
  - exact Hverify.
  - reflexivity.
  - intros [|]; destruct shouldVerify; try reflexivity.
    rewrite Hverify.
    pose proof (FetchNzCount_preserves_cache (set_m_cachedNzCount n m)) as Hp.
    destruct (FetchNzCount (set_m_cachedNzCount n m)) as [k m1 | f m1];
      [destruct (k =? n) |]; exact Hp.
Qed.

(** C5, as the code has it.  [UpdateCachedNzCount(n, verify)] stores [n]
    in the cache without a device read and returns, for either value of
    [verify], the default [true] included; the cache then reads as Valid
    with [n] unless [n] is [INVALID_NZ_COUNT].  Its verification step,
    [VerifyCachedNzCount], returns at once without fetching or comparing, so
    no call of [UpdateCachedNzCount] ends in a fault, whatever count the
    device holds. *)
Theorem UpdateCachedNzCount_stores_without_verifying (n : Z)
  (shouldVerify : bool) (m : GPUSparseMatrix) :
  UpdateCachedNzCount n shouldVerify m = Returns tt (set_m_cachedNzCount n m)
  /\ UpdateCachedNzCount_default n m = Returns tt (set_m_cachedNzCount n m)
  /\ m_cachedNzCount (set_m_cachedNzCount n m) = n
  /\ cacheState (set_m_cachedNzCount n m)
     = (if n =? INVALID_NZ_COUNT then Invalid else Valid n)
  /\ deviceReads (finalState (UpdateCachedNzCount n shouldVerify m))
     = deviceReads m
  /\ (forall nzCount, VerifyCachedNzCount nzCount m = Returns tt m)
  /\ (forall f m1, UpdateCachedNzCount n shouldVerify m <> Throws f m1).
Proof.
  assert (Hsrc : UpdateCachedNzCount n shouldVerify m
                 = Returns tt (set_m_cachedNzCount n m))
    by (destruct shouldVerify; reflexivity).
  repeat apply conj.
  - exact Hsrc.
  - reflexivity.
  - reflexivity.
  - apply cacheState_set.
  - rewrite Hsrc. reflexivity.
  - intros nzCount. reflexivity.
  - intros f m1. rewrite Hsrc. discriminate.
Qed.

(** C10. Invalid is the value [INVALID_NZ_COUNT] = -1 of the cache field.
    After [UpdateCachedNzCount(-1, verify)] the cache is Invalid,
    [HasCachedNzCount] is false and the next [NzCount] runs a fetch.  No
    state reads as Valid with count -1: whenever [HasCachedNzCount] is true,
    [NzCount] returns a count other than -1. *)
Theorem INVALID_NZ_COUNT_is_never_cached (shouldVerify : bool)
  (m : GPUSparseMatrix) :
  INVALID_NZ_COUNT = -1
  /\ UpdateCachedNzCount INVALID_NZ_COUNT shouldVerify m
     = Returns tt (set_m_cachedNzCount INVALID_NZ_COUNT m)
  /\ HasCachedNzCount (set_m_cachedNzCount INVALID_NZ_COUNT m) = false
  /\ cacheState (set_m_cachedNzCount INVALID_NZ_COUNT m) = Invalid
  /\ NzCount (set_m_cachedNzCount INVALID_NZ_COUNT m)
     = match FetchNzCount m with
       | Returns n m1 => Returns n (set_m_cachedNzCount n m1)
       | Throws f m1 => Throws f (set_m_cachedNzCount INVALID_NZ_COUNT m1)
       end
  /\ cacheState m <> Valid INVALID_NZ_COUNT
  /\ (HasCachedNzCount m = true ->
      NzCount m = Returns (m_cachedNzCount m) m
      /\ m_cachedNzCount m <> INVALID_NZ_COUNT).
Proof.
  repeat apply conj.
  - reflexivity.
  - destruct shouldVerify; reflexivity.
  - reflexivity.
  - reflexivity.
  - apply NzCount_after_invalidation.
  - unfold cacheState. destruct (HasCachedNzCount m) eqn:Hc; [| discriminate].
    apply HasCachedNzCount_true in Hc. congruence.
  - intros H. split; [apply NzCount_valid | apply HasCachedNzCount_true];
      exact H.
Qed.

(** ** Sizes and offsets *)

Section LayoutFacts.

Variable sizeof_ElemType : Z.
Variable hasRowMajorFlag : MatrixFormat -> bool.

Implicit Types (m : GPUSparseMatrix) (f : MatrixFormat).

Local Abbreviation sE := sizeof_ElemType.
Local Abbreviation sI := sizeof_GPUSPARSE_INDEX_TYPE.

Lemma MajorIndexCount_by_format numRows numCols numNZ f :
  MajorIndexCount numRows numCols numNZ f
  = match f with
    | matrixFormatSparseBlockCol => numCols
    | matrixFormatSparseBlockRow => numRows
    | _ => numNZ
    end.
Proof. destruct f; reflexivity. Qed.

Lemma SecondaryIndexCount_by_format numRows numCols numNZ f :
  SecondaryIndexCount numRows numCols numNZ f
  = match f with
    | matrixFormatSparseBlockCol => numCols
    | matrixFormatSparseBlockRow => numRows
    | matrixFormatSparseCSC => to_size_t (numCols + 1)
    | matrixFormatSparseCSR => to_size_t (numRows + 1)
    | matrixFormatSparseCOO => numNZ
    end.
Proof. destruct f; reflexivity. Qed.

(** The buffer size is the sum of the three arrays' bytes, reduced once. *)
Lemma BufferSizeNeeded_unfolded numRows numCols numNZ f :
  BufferSizeNeeded sE numRows numCols numNZ f
  = to_size_t (sE * numNZ
               + sI * (MajorIndexCount numRows numCols numNZ f
                       + SecondaryIndexCount numRows numCols numNZ f)).
Proof. unfold BufferSizeNeeded. size_t_eq. Qed.

(** What [ComputeMaxNZElemFromBufferSize] divides, and by what. *)
Lemma ComputeMaxNZElemFromBufferSize_quotient numRows numCols bufferSize f :
  isLayoutFormat f = true ->
  in_size_t (sI + sE) ->
  ComputeMaxNZElemFromBufferSize sE numRows numCols bufferSize f
  = Ok (to_size_t (bufferSize - fixedIndexBytes numRows numCols f)
        / bytesPerNZ sE f).
Proof.
  intros Hf Hs.
  destruct f; try discriminate Hf;
    unfold ComputeMaxNZElemFromBufferSize, bytesPerNZ, fixedIndexBytes;
    cbn [MatrixFormat_eqb isBlock orb];
    try rewrite (to_size_t_small (sI + sE)) by exact Hs;
    do 2 f_equal; size_t_eq.
Qed.

(** The bytes left after the fixed index part are the per-non-zero bytes. *)
Lemma BufferSizeNeeded_minus_fixed numRows numCols numNZ f :
  isLayoutFormat f = true ->
  to_size_t (BufferSizeNeeded sE numRows numCols numNZ f
             - fixedIndexBytes numRows numCols f)
  = to_size_t (bytesPerNZ sE f * numNZ).
Proof.
  intros Hf.
  destruct f; try discriminate Hf;
    unfold BufferSizeNeeded, bytesPerNZ, fixedIndexBytes, MajorIndexCount,
      SecondaryIndexCount;
    cbn [MatrixFormat_eqb isBlock orb]; size_t_eq.
Qed.

Lemma MajorIndexSize_returns m :
  isCompressed (GetFormat m) = true ->
  returned (MajorIndexSize m) = true.
Proof.
  intros Hf. destruct (NzCount_returns m Hf) as (n & m1 & Hn & _).
  unfold MajorIndexSize, MajorIndexCount_this, bind. rewrite Hn. reflexivity.
Qed.

(** X14. Once the per-non-zero bytes overflow [size_t], the count computed
    back from the buffer size falls short of the count the size was computed
    for. *)
Lemma ComputeMaxNZElemFromBufferSize_short_after_overflow
  numRows numCols numNZ f k :
  0 < sE ->
  in_size_t (sI + sE) ->
  isLayoutFormat f = true ->
  SIZE_MODULUS <= bytesPerNZ sE f * numNZ ->
  ComputeMaxNZElemFromBufferSize sE numRows numCols
    (BufferSizeNeeded sE numRows numCols numNZ f) f = Ok k ->
  k < numNZ.
Proof.
  intros HsE Hsum Hf Hover Hk.
  rewrite (ComputeMaxNZElemFromBufferSize_quotient _ _ _ f Hf Hsum) in Hk.
  rewrite (BufferSizeNeeded_minus_fixed numRows numCols numNZ f Hf) in Hk.
  injection Hk as <-.
  assert (Hpos : 0 < bytesPerNZ sE f).
  { unfold bytesPerNZ, sizeof_GPUSPARSE_INDEX_TYPE. destruct (isBlock f); lia. }
  pose proof (to_size_t_range (bytesPerNZ sE f * numNZ)) as Hr.
  unfold in_size_t in Hr.
  apply Z.div_lt_upper_bound; lia.
Qed.

(** C3. For each of CSR, CSC, SparseBlockCol and SparseBlockRow,
    [BufferSizeNeeded(rows, cols, nnz, format)] is
    [sizeof(value)*nnz + sizeof(index)*(majorCount + secondaryCount)]
    computed in [size_t], with [majorCount] and [secondaryCount] the lengths
    the specification gives per format; it is that very number when the sum
    fits [size_t].  [MajorIndexCount] and [SecondaryIndexCount] are those
    lengths. *)
Theorem BufferSizeNeeded_formula (numRows numCols numNZ : Z) (f : MatrixFormat)
  (v : Z) :
  spec_bufferSize sizeof_ElemType numRows numCols numNZ f = Some v ->
  BufferSizeNeeded sizeof_ElemType numRows numCols numNZ f = to_size_t v
  /\ (in_size_t v ->
      BufferSizeNeeded sizeof_ElemType numRows numCols numNZ f = v)
  /\ spec_majorCount numRows numCols numNZ f
     = Some (MajorIndexCount numRows numCols numNZ f)
  /\ (exists secondary,
         spec_secondaryCount numRows numCols f = Some secondary
         /\ to_size_t (SecondaryIndexCount numRows numCols numNZ f)
            = to_size_t secondary).
Proof.
  intros Hspec.
  assert (Hmod : BufferSizeNeeded sizeof_ElemType numRows numCols numNZ f
                 = to_size_t v).
  { rewrite (BufferSizeNeeded_unfolded numRows numCols numNZ f).
    destruct f;
      cbv beta iota delta [spec_bufferSize spec_majorCount spec_secondaryCount]
        in Hspec;
      try discriminate Hspec;
      apply (f_equal (fun o => match o with Some x => x | None => v end))
        in Hspec; subst v;
      unfold MajorIndexCount, SecondaryIndexCount; cbn [MatrixFormat_eqb];
      size_t_eq. }
  repeat apply conj.
  - exact Hmod.
  - intros Hv. rewrite Hmod. apply to_size_t_small, Hv.
  - destruct f; try discriminate Hspec; reflexivity.
  - destruct f; try discriminate Hspec; simpl; eexists; split;
      try reflexivity; apply to_size_t_idem.
Qed.

(** C4, as the code has it.  For a format outside CSR, CSC, SparseBlockCol
    and SparseBlockRow (COO), [ComputeMaxNZElemFromBufferSize] signals
    "not implemented"; [MajorIndexCount] and [SecondaryIndexCount] return the
    non-zero count they are given, and [BufferSizeNeeded] returns
    [sizeof(value)*nnz + sizeof(index)*(nnz + nnz)] computed in [size_t]. *)
Theorem size_computation_outside_layout_formats
  (numRows numCols numNZ bufferSize : Z) (f : MatrixFormat) :
  isLayoutFormat f = false ->
  ComputeMaxNZElemFromBufferSize sizeof_ElemType numRows numCols bufferSize f
  = Raise NotImplemented
  /\ MajorIndexCount numRows numCols numNZ f = numNZ
  /\ SecondaryIndexCount numRows numCols numNZ f = numNZ
  /\ BufferSizeNeeded sizeof_ElemType numRows numCols numNZ f
     = to_size_t (sizeof_ElemType * numNZ
                  + sizeof_GPUSPARSE_INDEX_TYPE * (numNZ + numNZ)).
Proof.
  intros Hf. apply isLayoutFormat_false in Hf. subst f.
  repeat apply conj; try reflexivity.
  apply (BufferSizeNeeded_unfolded numRows numCols numNZ matrixFormatSparseCOO).
Qed.

(** C9, as the code has it.  For each of CSR, CSC, SparseBlockCol and
    SparseBlockRow, every [rows] and [cols], and every [nnz] whose
    per-non-zero bytes fit [size_t] ([sizeof(value)*nnz] for the block
    formats, [(sizeof(index)+sizeof(value))*nnz] for CSR and CSC),
    [ComputeMaxNZElemFromBufferSize] applied to
    [BufferSizeNeeded(rows, cols, nnz, format)] returns [nnz], and the
    division leaves no remainder: the dividend is [nnz] times the divisor. *)
Theorem ComputeMaxNZElemFromBufferSize_BufferSizeNeeded
  (numRows numCols numNZ : Z) (f : MatrixFormat) :
  0 < sizeof_ElemType ->
  in_size_t (sizeof_GPUSPARSE_INDEX_TYPE + sizeof_ElemType) ->
  isLayoutFormat f = true ->
  0 <= numNZ ->
  bytesPerNZ sizeof_ElemType f * numNZ < SIZE_MODULUS ->
  ComputeMaxNZElemFromBufferSize sizeof_ElemType numRows numCols
    (BufferSizeNeeded sizeof_ElemType numRows numCols numNZ f) f
  = Ok numNZ
  /\ to_size_t (BufferSizeNeeded sizeof_ElemType numRows numCols numNZ f
                - fixedIndexBytes numRows numCols f)
     = bytesPerNZ sizeof_ElemType f * numNZ
  /\ (bytesPerNZ sizeof_ElemType f * numNZ) mod bytesPerNZ sizeof_ElemType f = 0
  /\ (forall bufferSize,
         ComputeMaxNZElemFromBufferSize sizeof_ElemType numRows numCols
           bufferSize f
         = Ok (to_size_t (bufferSize - fixedIndexBytes numRows numCols f)
               / bytesPerNZ sizeof_ElemType f)).
Proof.
  intros HsE Hsum Hf Hnz Hfit.
  assert (Hpos : 0 < bytesPerNZ sizeof_ElemType f).
  { unfold bytesPerNZ, sizeof_GPUSPARSE_INDEX_TYPE.
    destruct (isBlock f); lia. }
  assert (Hdividend :
            to_size_t (BufferSizeNeeded sizeof_ElemType numRows numCols numNZ f
                       - fixedIndexBytes numRows numCols f)
            = bytesPerNZ sizeof_ElemType f * numNZ).
  { rewrite (BufferSizeNeeded_minus_fixed numRows numCols numNZ f Hf).
    apply to_size_t_small. unfold in_size_t. split; [nia | exact Hfit]. }
  repeat apply conj.
  - rewrite (ComputeMaxNZElemFromBufferSize_quotient _ _ _ f Hf Hsum).
    rewrite Hdividend.
    rewrite Z.mul_comm, Z.div_mul by lia. reflexivity.
  - exact Hdividend.
  - rewrite Z.mul_comm. apply Z.mod_mul. lia.
  - intros b. apply (ComputeMaxNZElemFromBufferSize_quotient _ _ _ f Hf Hsum).
Qed.

(** The secondary index of a compressed format starts [m_sliceViewOffset]
    entries after the end of the major index. *)
Lemma SecondaryIndexLocation_compressed m :
  isBlock (GetFormat m) = false ->
  SecondaryIndexLocation sE m
  = ptr_add (ptr_add (MajorIndexLocation sE m) sI (GetSizeAllocated m))
      sI (m_sliceViewOffset m).
Proof.
  intros Hf. unfold SecondaryIndexLocation, MajorIndexLocation.
  destruct (GetFormat m); try discriminate Hf; cbn [MatrixFormat_eqb];
    size_t_eq.
Qed.

(** C6, as the code has it.  The major index starts [sizeAllocated] value
    slots after the start of the buffer.  For SparseBlockCol and
    SparseBlockRow the secondary index starts [numCols], respectively
    [numRows], index slots after the start of the major index.  For CSR and
    CSC it starts [m_sliceViewOffset] index slots after the position that
    follows [sizeAllocated] major-index slots, which is that position itself
    when the matrix is not a slice view. *)
Theorem packed_buffer_layout (m : GPUSparseMatrix) :
  MajorIndexLocation sizeof_ElemType m
  = ptr_add (Buffer m) sizeof_ElemType (GetSizeAllocated m)
  /\ match GetFormat m with
     | matrixFormatSparseBlockCol =>
         SecondaryIndexLocation sizeof_ElemType m
         = ptr_add (MajorIndexLocation sizeof_ElemType m)
             sizeof_GPUSPARSE_INDEX_TYPE (GetNumCols m)
     | matrixFormatSparseBlockRow =>
         SecondaryIndexLocation sizeof_ElemType m
         = ptr_add (MajorIndexLocation sizeof_ElemType m)
             sizeof_GPUSPARSE_INDEX_TYPE (GetNumRows m)
     | _ =>
         SecondaryIndexLocation sizeof_ElemType m
         = ptr_add
             (ptr_add (MajorIndexLocation sizeof_ElemType m)
                sizeof_GPUSPARSE_INDEX_TYPE (GetSizeAllocated m))
             sizeof_GPUSPARSE_INDEX_TYPE (m_sliceViewOffset m)
         /\ (m_sliceViewOffset m = 0 ->
             SecondaryIndexLocation sizeof_ElemType m
             = ptr_add (MajorIndexLocation sizeof_ElemType m)
                 sizeof_GPUSPARSE_INDEX_TYPE (GetSizeAllocated m))
     end.
Proof.
  split; [reflexivity |].
  pose proof (SecondaryIndexLocation_compressed m) as Hc.
  destruct (GetFormat m) eqn:Hf;
    try (unfold SecondaryIndexLocation; rewrite Hf; reflexivity);
    (split; [apply Hc; reflexivity |]);
    intros Hoff; rewrite Hc by reflexivity; rewrite Hoff; size_t_eq.
Qed.

(** C7. The slice-view offset enters the secondary index position only.
    [Buffer()] and [MajorIndexLocation()] are the same whatever the offset;
    for CSR and CSC, the formats of a column slice,
    [SecondaryIndexLocation()] is the position for offset 0 advanced by
    [m_sliceViewOffset] index slots. *)
Theorem sliceViewOffset_moves_secondary_index_only (m : GPUSparseMatrix)
  (offset : Z) :
  Buffer (set_m_sliceViewOffset offset m) = Buffer m
  /\ MajorIndexLocation sizeof_ElemType (set_m_sliceViewOffset offset m)
     = MajorIndexLocation sizeof_ElemType m
  /\ (isCompressed (GetFormat m) = true ->
      SecondaryIndexLocation sizeof_ElemType (set_m_sliceViewOffset offset m)
      = ptr_add
          (SecondaryIndexLocation sizeof_ElemType (set_m_sliceViewOffset 0 m))
          sizeof_GPUSPARSE_INDEX_TYPE offset).
Proof.
  repeat apply conj; try reflexivity.
  intros Hf.
  unfold SecondaryIndexLocation, MajorIndexLocation, set_m_sliceViewOffset.
  cbn [GetFormat GetNumCols GetNumRows GetSizeAllocated m_sliceViewOffset
         Buffer].
  destruct (GetFormat m); try discriminate Hf; cbn [MatrixFormat_eqb];
    size_t_eq.
Qed.

(** C8. [RowLocation], [ColLocation], [RowSize] and [ColSize] assert that
    the format is CSC or CSR: under that precondition each returns, and on
    any other format, the block formats among them, each stops with an
    assertion failure.  [BlockId2ColOrRow] and [ColOrRow2BlockId] assert
    that the format is SparseBlockCol or SparseBlockRow: they return the
    major, respectively secondary, index position under that precondition
    and stop with an assertion failure otherwise. *)
Theorem format_assertions (m : GPUSparseMatrix) :
  (isCompressed (GetFormat m) = true ->
   RowLocation sizeof_ElemType hasRowMajorFlag m
   = Returns (if hasRowMajorFlag (GetFormat m)
              then SecondaryIndexLocation sizeof_ElemType m
              else MajorIndexLocation sizeof_ElemType m) m
   /\ ColLocation sizeof_ElemType hasRowMajorFlag m
      = Returns (if hasRowMajorFlag (GetFormat m)
                 then MajorIndexLocation sizeof_ElemType m
                 else SecondaryIndexLocation sizeof_ElemType m) m
   /\ RowSize hasRowMajorFlag m
      = (if hasRowMajorFlag (GetFormat m)
         then Returns (SecondaryIndexSize m) m
         else MajorIndexSize m)
   /\ ColSize hasRowMajorFlag m
      = (if hasRowMajorFlag (GetFormat m)
         then MajorIndexSize m
         else Returns (SecondaryIndexSize m) m)
   /\ returned (RowSize hasRowMajorFlag m) = true
   /\ returned (ColSize hasRowMajorFlag m) = true)
  /\ (isCompressed (GetFormat m) = false ->
      RowLocation sizeof_ElemType hasRowMajorFlag m = Throws AssertionFailure m
      /\ ColLocation sizeof_ElemType hasRowMajorFlag m
         = Throws AssertionFailure m
      /\ RowSize hasRowMajorFlag m = Throws AssertionFailure m
      /\ ColSize hasRowMajorFlag m = Throws AssertionFailure m)
  /\ (isBlock (GetFormat m) = true -> isCompressed (GetFormat m) = false)
  /\ (isBlock (GetFormat m) = true ->
      BlockId2ColOrRow sizeof_ElemType m
      = Returns (MajorIndexLocation sizeof_ElemType m) m
      /\ ColOrRow2BlockId sizeof_ElemType m
         = Returns (SecondaryIndexLocation sizeof_ElemType m) m)
  /\ (isBlock (GetFormat m) = false ->
      BlockId2ColOrRow sizeof_ElemType m = Throws AssertionFailure m
      /\ ColOrRow2BlockId sizeof_ElemType m = Throws AssertionFailure m).
Proof.
  repeat apply conj.
  - intros Hf.
    assert (HR : RowSize hasRowMajorFlag m
                 = (if hasRowMajorFlag (GetFormat m)
                    then Returns (SecondaryIndexSize m) m
                    else MajorIndexSize m)).
    { unfold RowSize, bind, this, assert. fold (isCompressed (GetFormat m)).
      rewrite Hf. destruct (hasRowMajorFlag (GetFormat m)); reflexivity. }
    assert (HC : ColSize hasRowMajorFlag m
                 = (if hasRowMajorFlag (GetFormat m)
                    then MajorIndexSize m
                    else Returns (SecondaryIndexSize m) m)).
    { unfold ColSize, bind, this, assert. fold (isCompressed (GetFormat m)).
      rewrite Hf. destruct (hasRowMajorFlag (GetFormat m)); reflexivity. }
    pose proof (MajorIndexSize_returns m Hf) as Hret.
    repeat apply conj.
    + unfold RowLocation, bind, this, assert.
      fold (isCompressed (GetFormat m)). rewrite Hf. reflexivity.
    + unfold ColLocation, bind, this, assert.
      fold (isCompressed (GetFormat m)). rewrite Hf. reflexivity.
    + exact HR.
    + exact HC.
    + rewrite HR. destruct (hasRowMajorFlag (GetFormat m)); trivial.
    + rewrite HC. destruct (hasRowMajorFlag (GetFormat m)); trivial.
  - intros Hf.
    repeat apply conj;
      unfold RowLocation, ColLocation, RowSize, ColSize, bind, this, assert;
      fold (isCompressed (GetFormat m)); rewrite Hf; reflexivity.
  - destruct (GetFormat m); cbv; intros H; congruence.
  - intros Hf.
    split; unfold BlockId2ColOrRow, ColOrRow2BlockId, bind, this, assert;
      fold (isBlock (GetFormat m)); rewrite Hf; reflexivity.
  - intros Hf.
    split; unfold BlockId2ColOrRow, ColOrRow2BlockId, bind, this, assert;
      fold (isBlock (GetFormat m)); rewrite Hf; reflexivity.
Qed.

End LayoutFacts.

(** ** The properties on the sample matrices *)

(** Closes a side condition on concrete numbers. *)
Ltac concrete :=
  first [ reflexivity
        | discriminate
        | vm_compute; repeat split; first [reflexivity | discriminate] ].

(** The invalid cache of [sampleCSC] is filled by two device reads; the
    valid cache of [sampleCSR] is returned as it is. *)
Lemma NzCount_two_state_discipline_witness :
  cacheState sampleCSC = Invalid
  /\ NzCount sampleCSC
     = Returns 4
         (set_m_cachedNzCount 4 (count_deviceRead (count_deviceRead sampleCSC)))
  /\ cacheState sampleCSR = Valid 4
  /\ NzCount sampleCSR = Returns 4 sampleCSR.
Proof.
  repeat apply conj.
  - reflexivity.
  - apply (proj1 (proj1 (NzCount_two_state_discipline sampleCSC) eq_refl)
             4 (count_deviceRead (count_deviceRead sampleCSC)) eq_refl).
  - reflexivity.
  - apply (proj1 (proj2 (NzCount_two_state_discipline sampleCSR)) 4 eq_refl).
Defined.

Lemma FetchNzCount_by_format_witness :
  in_int (deviceSecondaryIndex sampleCSC 3 - deviceSecondaryIndex sampleCSC 0)
  /\ FetchNzCount sampleCSC
     = Returns 4 (count_deviceRead (count_deviceRead sampleCSC))
  /\ FetchNzCount sampleBlockCol = Returns 6 sampleBlockCol
  /\ FetchNzCount sampleBlockRow = Throws NotImplemented sampleBlockRow.
Proof.
  assert (Hint : in_int (deviceSecondaryIndex sampleCSC 3
                         - deviceSecondaryIndex sampleCSC 0)) by concrete.
  split; [exact Hint |]. repeat apply conj.
  - apply (proj2 (FetchNzCount_by_format sampleCSC) Hint).
  - apply (proj2 (FetchNzCount_by_format sampleBlockCol)). concrete.
  - apply (FetchNzCount_by_format sampleBlockRow).
Defined.

(** C1 as stated fails.  The [2^32 - 1] values of [sampleBlockColWide] are
    fetched as the count -1, which [NzCount] returns and stores, and the
    cache still reads as Invalid; on [sampleBlockRow] the fetch, and with it
    [NzCount], throws instead of returning a count. *)
Lemma NzCount_leaves_cache_invalid :
  cacheState sampleBlockColWide = Invalid
  /\ NzCount sampleBlockColWide
     = Returns (-1) (set_m_cachedNzCount (-1) sampleBlockColWide)
  /\ cacheState (finalState (NzCount sampleBlockColWide)) = Invalid
  /\ cacheState (finalState (NzCount sampleBlockColWide)) <> Valid (-1)
  /\ cacheState sampleBlockRow = Invalid
  /\ NzCount sampleBlockRow = Throws NotImplemented sampleBlockRow.
Proof.
  assert (H : NzCount sampleBlockColWide
              = Returns (-1) (set_m_cachedNzCount (-1) sampleBlockColWide))
    by (vm_compute; reflexivity).
  split; [reflexivity |]. split; [exact H |]. rewrite H.
  split; [reflexivity |]. split; [discriminate |].
  split; reflexivity.
Qed.

(** C2 as stated fails.  [sampleBlockColLarge] has 50000 rows and block
    size 50000; the fetch yields the product cut to an [int],
    -1794967296, not the product 2500000000. *)
Lemma FetchNzCount_cuts_the_product_to_int :
  GetFormat sampleBlockColLarge = matrixFormatSparseBlockCol
  /\ GetNumRows sampleBlockColLarge * GetBlockSize sampleBlockColLarge
     = 2500000000
  /\ FetchNzCount sampleBlockColLarge
     = Returns (-1794967296) sampleBlockColLarge
  /\ FetchNzCount sampleBlockColLarge
     <> Returns (GetNumRows sampleBlockColLarge
                 * GetBlockSize sampleBlockColLarge) sampleBlockColLarge.
Proof.
  assert (H : FetchNzCount sampleBlockColLarge
              = Returns (-1794967296) sampleBlockColLarge)
    by (vm_compute; reflexivity).
  split; [reflexivity |]. split; [reflexivity |]. split; [exact H |].
  rewrite H. discriminate.
Qed.

(** C5 as stated fails.  [sampleCSC] holds four non-zeros;
    [UpdateCachedNzCount(7, true)] returns with 7 cached and no device read,
    and [NzCount] then answers 7, although a fetch yields 4: the mismatch
    raises no logic error.  With the sentinel as argument the cache is left
    Invalid, not Valid. *)
Lemma UpdateCachedNzCount_accepts_a_wrong_count :
  UpdateCachedNzCount 7 true sampleCSC
  = Returns tt (set_m_cachedNzCount 7 sampleCSC)
  /\ deviceReads (set_m_cachedNzCount 7 sampleCSC) = deviceReads sampleCSC
  /\ valueOf (FetchNzCount (set_m_cachedNzCount 7 sampleCSC)) = Ok 4
  /\ NzCount (set_m_cachedNzCount 7 sampleCSC)
     = Returns 7 (set_m_cachedNzCount 7 sampleCSC)
  /\ UpdateCachedNzCount 7 true sampleCSC
     <> Throws LogicErrorFault (set_m_cachedNzCount 7 sampleCSC)
  /\ cacheState (finalState (UpdateCachedNzCount (-1) true sampleCSC))
     = Invalid.
Proof.
  split; [reflexivity |]. split; [reflexivity |]. split; [reflexivity |].
  split; [reflexivity |]. split; [discriminate | reflexivity].
Qed.

Lemma BufferSizeNeeded_formula_witness :
  spec_bufferSize sizeof_float 3 3 4 matrixFormatSparseCSC = Some 48
  /\ BufferSizeNeeded sizeof_float 3 3 4 matrixFormatSparseCSC = 48.
Proof.
  split; [reflexivity |].
  apply (proj1 (proj2 (BufferSizeNeeded_formula sizeof_float 3 3 4
                         matrixFormatSparseCSC 48 eq_refl))).
  concrete.
Defined.

(** C4 as stated fails: for COO the counts and the buffer size are returned;
    only [ComputeMaxNZElemFromBufferSize] signals "not implemented". *)
Lemma size_computation_returns_for_COO :
  isLayoutFormat matrixFormatSparseCOO = false
  /\ MajorIndexCount 3 3 4 matrixFormatSparseCOO = 4
  /\ SecondaryIndexCount 3 3 4 matrixFormatSparseCOO = 4
  /\ BufferSizeNeeded sizeof_float 3 3 4 matrixFormatSparseCOO = 48
  /\ signalsNotImplemented
       (Ok (BufferSizeNeeded sizeof_float 3 3 4 matrixFormatSparseCOO))
     = false
  /\ signalsNotImplemented
       (ComputeMaxNZElemFromBufferSize sizeof_float 3 3 48
          matrixFormatSparseCOO)
     = true.
Proof. repeat apply conj; reflexivity. Qed.

Lemma size_computation_outside_layout_formats_witness :
  isLayoutFormat matrixFormatSparseCOO = false
  /\ ComputeMaxNZElemFromBufferSize sizeof_float 3 3 48 matrixFormatSparseCOO
     = Raise NotImplemented
  /\ BufferSizeNeeded sizeof_float 3 3 4 matrixFormatSparseCOO
     = to_size_t (sizeof_float * 4 + sizeof_GPUSPARSE_INDEX_TYPE * (4 + 4)).
Proof.
  pose proof (size_computation_outside_layout_formats sizeof_float 3 3 4 48
                matrixFormatSparseCOO eq_refl) as H.
  repeat apply conj.
  - reflexivity.
  - apply H.
  - apply H.
Defined.

(** C9 as stated fails: [2^62] floats take [2^64] bytes, which [size_t]
    reduces to 0, and [2^61] CSC non-zeros take [2^64] bytes of values and
    major indices; the non-zero count computed back is 0. *)
Lemma ComputeMaxNZElemFromBufferSize_after_overflow :
  isLayoutFormat matrixFormatSparseBlockCol = true
  /\ in_size_t (2 ^ 62)
  /\ BufferSizeNeeded sizeof_float 1 1 (2 ^ 62) matrixFormatSparseBlockCol = 8
  /\ ComputeMaxNZElemFromBufferSize sizeof_float 1 1
       (BufferSizeNeeded sizeof_float 1 1 (2 ^ 62) matrixFormatSparseBlockCol)
       matrixFormatSparseBlockCol
     = Ok 0
  /\ ComputeMaxNZElemFromBufferSize sizeof_float 1 1
       (BufferSizeNeeded sizeof_float 1 1 (2 ^ 62) matrixFormatSparseBlockCol)
       matrixFormatSparseBlockCol
     <> Ok (2 ^ 62)
  /\ ComputeMaxNZElemFromBufferSize sizeof_float 1 1
       (BufferSizeNeeded sizeof_float 1 1 (2 ^ 61) matrixFormatSparseCSC)
       matrixFormatSparseCSC
     <> Ok (2 ^ 61).
Proof. repeat apply conj; concrete. Qed.

Lemma ComputeMaxNZElemFromBufferSize_BufferSizeNeeded_witness :
  0 < sizeof_float
  /\ in_size_t (sizeof_GPUSPARSE_INDEX_TYPE + sizeof_float)
  /\ isLayoutFormat matrixFormatSparseCSC = true
  /\ 0 <= 4
  /\ bytesPerNZ sizeof_float matrixFormatSparseCSC * 4 < SIZE_MODULUS
  /\ ComputeMaxNZElemFromBufferSize sizeof_float 3 3
       (BufferSizeNeeded sizeof_float 3 3 4 matrixFormatSparseCSC)
       matrixFormatSparseCSC
     = Ok 4.
Proof.
  assert (H1 : 0 < sizeof_float) by concrete.
  assert (H2 : in_size_t (sizeof_GPUSPARSE_INDEX_TYPE + sizeof_float))
    by concrete.
  assert (H3 : 0 <= 4) by concrete.
  assert (H4 : bytesPerNZ sizeof_float matrixFormatSparseCSC * 4 < SIZE_MODULUS)
    by concrete.
  split; [exact H1 |]. split; [exact H2 |]. split; [reflexivity |].
  split; [exact H3 |]. split; [exact H4 |].
  apply (ComputeMaxNZElemFromBufferSize_BufferSizeNeeded sizeof_float 3 3 4
           matrixFormatSparseCSC H1 H2 eq_refl H3 H4).
Defined.

(** C6 as stated fails on a slice view: the secondary index position of
    [sampleSlice] lies one index slot past the end of the major index. *)
Lemma slice_view_secondary_index_is_shifted :
  MajorIndexLocation sizeof_float sampleSlice = 4112
  /\ ptr_add (MajorIndexLocation sizeof_float sampleSlice)
       sizeof_GPUSPARSE_INDEX_TYPE (GetSizeAllocated sampleSlice)
     = 4128
  /\ SecondaryIndexLocation sizeof_float sampleSlice = 4132
  /\ SecondaryIndexLocation sizeof_float sampleSlice
     <> ptr_add (MajorIndexLocation sizeof_float sampleSlice)
          sizeof_GPUSPARSE_INDEX_TYPE (GetSizeAllocated sampleSlice).
Proof. repeat apply conj; concrete. Qed.

Lemma packed_buffer_layout_witness :
  m_sliceViewOffset sampleCSC = 0
  /\ SecondaryIndexLocation sizeof_float sampleCSC
     = ptr_add (MajorIndexLocation sizeof_float sampleCSC)
         sizeof_GPUSPARSE_INDEX_TYPE (GetSizeAllocated sampleCSC)
  /\ SecondaryIndexLocation sizeof_float sampleBlockCol
     = ptr_add (MajorIndexLocation sizeof_float sampleBlockCol)
         sizeof_GPUSPARSE_INDEX_TYPE (GetNumCols sampleBlockCol).
Proof.
  repeat apply conj.
  - reflexivity.
  - apply (proj2 (proj2 (packed_buffer_layout sizeof_float sampleCSC))
             eq_refl).
  - apply (proj2 (packed_buffer_layout sizeof_float sampleBlockCol)).
Defined.

Lemma sliceViewOffset_moves_secondary_index_only_witness :
  isCompressed (GetFormat sampleCSC) = true
  /\ SecondaryIndexLocation sizeof_float (set_m_sliceViewOffset 1 sampleCSC)
     = ptr_add
         (SecondaryIndexLocation sizeof_float
            (set_m_sliceViewOffset 0 sampleCSC))
         sizeof_GPUSPARSE_INDEX_TYPE 1.
Proof.
  split; [reflexivity |].
  apply (proj2 (proj2 (sliceViewOffset_moves_secondary_index_only
                         sizeof_float sampleCSC 1)) eq_refl).
Defined.

Lemma format_assertions_witness :
  isCompressed (GetFormat sampleCSC) = true
  /\ RowLocation sizeof_float sampleRowMajorFlag sampleCSC
     = Returns (MajorIndexLocation sizeof_float sampleCSC) sampleCSC
  /\ isCompressed (GetFormat sampleBlockCol) = false
  /\ isBlock (GetFormat sampleBlockCol) = true
  /\ RowLocation sizeof_float sampleRowMajorFlag sampleBlockCol
     = Throws AssertionFailure sampleBlockCol
  /\ BlockId2ColOrRow sizeof_float sampleBlockCol
     = Returns (MajorIndexLocation sizeof_float sampleBlockCol) sampleBlockCol
  /\ isBlock (GetFormat sampleCSC) = false
  /\ ColOrRow2BlockId sizeof_float sampleCSC
     = Throws AssertionFailure sampleCSC.
Proof.
  pose proof (format_assertions sizeof_float sampleRowMajorFlag sampleCSC)
    as (Hcompressed & _ & _ & _ & Hnotblock).
  pose proof (format_assertions sizeof_float sampleRowMajorFlag sampleBlockCol)
    as (_ & Hnotcompressed & _ & Hblock & _).
  split; [reflexivity |].
  split; [apply (proj1 (Hcompressed eq_refl)) |].
  split; [reflexivity |].
  split; [reflexivity |].
  split; [apply (proj1 (Hnotcompressed eq_refl)) |].
  split; [apply (proj1 (Hblock eq_refl)) |].
  split; [reflexivity |].
  apply (proj2 (Hnotblock eq_refl)).
Defined.

Lemma INVALID_NZ_COUNT_is_never_cached_witness :
  HasCachedNzCount sampleCSR = true
  /\ NzCount sampleCSR = Returns 4 sampleCSR
  /\ UpdateCachedNzCount INVALID_NZ_COUNT true sampleCSR
     = Returns tt (set_m_cachedNzCount INVALID_NZ_COUNT sampleCSR).
Proof.
  pose proof (INVALID_NZ_COUNT_is_never_cached true sampleCSR)
    as (_ & Hupdate & _ & _ & _ & _ & Hvalid).
  repeat apply conj.
  - reflexivity.
  - apply (proj1 (Hvalid eq_refl)).
  - exact Hupdate.
Defined.

(** * Further properties of the header's members *)

(** ** Calls on the cache in sequence *)

Section CacheSequences.

Implicit Types (m : GPUSparseMatrix) (n : Z).

Lemma sameMatrix_refl m : sameMatrix m m.
Proof. unfold sameMatrix. tauto. Qed.

Lemma sameMatrix_trans m1 m2 m3 :
  sameMatrix m1 m2 -> sameMatrix m2 m3 -> sameMatrix m1 m3.
Proof. unfold sameMatrix. intuition congruence. Qed.

Lemma sameMatrix_set_m_cachedNzCount n m :
  sameMatrix m (set_m_cachedNzCount n m).
Proof. unfold sameMatrix. simpl. tauto. Qed.

Lemma FetchNzCount_sameMatrix m : sameMatrix m (finalState (FetchNzCount m)).
Proof.
  unfold FetchNzCount, sameMatrix. destruct (GetFormat m) eqn:Hf; simpl;
    rewrite ?Hf; tauto.
Qed.

(** What a fetch yields is decided by the fields [sameMatrix] compares. *)
Lemma FetchNzCount_valueOf_sameMatrix m m' :
  sameMatrix m m' -> valueOf (FetchNzCount m') = valueOf (FetchNzCount m).
Proof.
  destruct m as [r c f b a o p k d e], m' as [r' c' f' b' a' o' p' k' d' e'].
  unfold sameMatrix. simpl. intros (-> & -> & -> & -> & -> & -> & -> & ->).
  unfold FetchNzCount. simpl. destruct f; reflexivity.
Qed.

Lemma NzCount_returns_the_cache_field m n m1 :
  NzCount m = Returns n m1 -> m_cachedNzCount m1 = n.
Proof.
  intros H. destruct (HasCachedNzCount m) eqn:Hc.
  - rewrite (NzCount_valid m Hc) in H. inversion H; subst. reflexivity.
  - destruct (FetchNzCount m) as [k m2 | f m2] eqn:Hf.
    + rewrite (NzCount_invalid_returns m k m2 Hc Hf) in H.
      inversion H; subst. reflexivity.
    + rewrite (NzCount_invalid_throws m f m2 Hc Hf) in H. discriminate.
Qed.

Lemma NzCount_finalState m :
  finalState (NzCount m)
  = if HasCachedNzCount m then m
    else match FetchNzCount m with
         | Returns k m1 => set_m_cachedNzCount k m1
         | Throws _ m1 => m1
         end.
Proof.
  destruct (HasCachedNzCount m) eqn:Hc.
  - rewrite (NzCount_valid m Hc). reflexivity.
  - destruct (FetchNzCount m) as [k m2 | f m2] eqn:Hf.
    + rewrite (NzCount_invalid_returns m k m2 Hc Hf). reflexivity.
    + rewrite (NzCount_invalid_throws m f m2 Hc Hf). reflexivity.
Qed.

Lemma NzCount_valueOf_invalid m :
  HasCachedNzCount m = false ->
  valueOf (NzCount m) = valueOf (FetchNzCount m).
Proof.
  intros Hc. destruct (FetchNzCount m) as [k m2 | f m2] eqn:Hf.
  - rewrite (NzCount_invalid_returns m k m2 Hc Hf). reflexivity.
  - rewrite (NzCount_invalid_throws m f m2 Hc Hf). reflexivity.
Qed.

Lemma NzCount_sameMatrix m : sameMatrix m (finalState (NzCount m)).
Proof.
  rewrite NzCount_finalState. destruct (HasCachedNzCount m).
  - apply sameMatrix_refl.
  - pose proof (FetchNzCount_sameMatrix m) as Hs.
    destruct (FetchNzCount m) as [k m2 | f m2]; simpl in Hs.
    + apply (sameMatrix_trans _ _ _ Hs), sameMatrix_set_m_cachedNzCount.
    + exact Hs.
Qed.

Lemma GetNumNZElements_valueOf m :
  valueOf (GetNumNZElements m)
  = match valueOf (NzCount m) with
    | Ok nz => Ok (to_size_t nz)
    | Raise f => Raise f
    end.
Proof.
  unfold GetNumNZElements, bind. destruct (NzCount m); reflexivity.
Qed.

(** X1. When [NzCount] has returned a count other than the sentinel, the
    cache holds it: a second call returns the same count and leaves the
    state, the counter of device reads included, as the first call left
    it. *)
Theorem NzCount_second_call_is_cached (m : GPUSparseMatrix) (n : Z)
  (m1 : GPUSparseMatrix) :
  NzCount m = Returns n m1 ->
  n <> INVALID_NZ_COUNT ->
  HasCachedNzCount m1 = true /\ NzCount m1 = Returns n m1.
Proof.
  intros Hcall Hn.
  apply NzCount_returns_the_cache_field in Hcall.
  assert (Hc : HasCachedNzCount m1 = true)
    by (apply HasCachedNzCount_true; congruence).
  split; [exact Hc |].
  rewrite (NzCount_valid m1 Hc), Hcall. reflexivity.
Qed.

(** X2. A count equal to the sentinel is never kept: when [NzCount] returns
    [INVALID_NZ_COUNT], the cache was invalid before the call and is invalid
    after it, and the next call fetches again and yields the sentinel
    again. *)
Theorem NzCount_sentinel_is_fetched_every_time (m m1 : GPUSparseMatrix) :
  NzCount m = Returns INVALID_NZ_COUNT m1 ->
  HasCachedNzCount m = false
  /\ HasCachedNzCount m1 = false
  /\ valueOf (FetchNzCount m1) = Ok INVALID_NZ_COUNT
  /\ valueOf (NzCount m1) = Ok INVALID_NZ_COUNT.
Proof.
  intros Hcall.
  assert (Hc : HasCachedNzCount m = false).
  { destruct (HasCachedNzCount m) eqn:Hc; [| reflexivity].
    rewrite (NzCount_valid m Hc) in Hcall. inversion Hcall as [[Hv Hm]].
    apply HasCachedNzCount_true in Hc. congruence. }
  assert (Hc1 : HasCachedNzCount m1 = false).
  { apply NzCount_returns_the_cache_field in Hcall.
    unfold HasCachedNzCount. rewrite Hcall. reflexivity. }
  assert (Hfetch : valueOf (FetchNzCount m1) = Ok INVALID_NZ_COUNT).
  { pose proof (NzCount_sameMatrix m) as Hs. rewrite Hcall in Hs. simpl in Hs.
    rewrite (FetchNzCount_valueOf_sameMatrix m m1 Hs).
    rewrite <- (NzCount_valueOf_invalid m Hc), Hcall. reflexivity. }
  split; [exact Hc |]. split; [exact Hc1 |]. split; [exact Hfetch |].
  rewrite (NzCount_valueOf_invalid m1 Hc1). exact Hfetch.
Qed.


(** X4. After [UpdateCachedNzCount(n, verify)] with [n] other than the
    sentinel, [NzCount] returns [n] without a fetch: the two calls in
    sequence return [n] and change the cache field only. *)
Theorem UpdateCachedNzCount_then_NzCount (n : Z) (shouldVerify : bool)
  (m : GPUSparseMatrix) :
  n <> INVALID_NZ_COUNT ->
  (UpdateCachedNzCount n shouldVerify ;;; NzCount) m
  = Returns n (set_m_cachedNzCount n m).
Proof.
  intros Hn.
  assert (Hu : UpdateCachedNzCount n shouldVerify m
               = Returns tt (set_m_cachedNzCount n m))
    by (destruct shouldVerify; reflexivity).
  unfold bind at 1. rewrite Hu.
  apply (NzCount_valid (set_m_cachedNzCount n m)).
  apply HasCachedNzCount_true. exact Hn.
Qed.


(** X11. On a SparseBlockCol matrix with an invalid cache whose
    [numRows * blockSize] lies between [2^31] and [2^32], the count wraps in
    the cast to [int]: [NzCount] returns the product less [2^32], a negative
    number, which [GetNumNZElements] hands on as the [size_t] that lies as
    far below [2^64]. *)
Theorem NzCount_of_wide_block_matrix (m : GPUSparseMatrix) :
  GetFormat m = matrixFormatSparseBlockCol ->
  HasCachedNzCount m = false ->
  INT_HALF <= GetNumRows m * GetBlockSize m < INT_MODULUS ->
  valueOf (NzCount m) = Ok (GetNumRows m * GetBlockSize m - INT_MODULUS)
  /\ GetNumRows m * GetBlockSize m - INT_MODULUS < 0
  /\ valueOf (GetNumNZElements m)
     = Ok (SIZE_MODULUS - (INT_MODULUS - GetNumRows m * GetBlockSize m)).
Proof.
  intros Hf Hc Hp.
  assert (Hhalf : 0 < INT_HALF) by reflexivity.
  assert (Htop : INT_MODULUS < SIZE_MODULUS) by reflexivity.
  assert (Hcount : valueOf (NzCount m)
                   = Ok (GetNumRows m * GetBlockSize m - INT_MODULUS)).
  { rewrite (NzCount_valueOf_invalid m Hc).
    unfold FetchNzCount. rewrite Hf. simpl. f_equal.
    rewrite to_size_t_small.
    - unfold to_int.
      replace (GetNumRows m * GetBlockSize m + INT_HALF)
        with (GetNumRows m * GetBlockSize m - INT_HALF + 1 * INT_MODULUS)
        by (change INT_MODULUS with (2 * INT_HALF); ring).
      rewrite Z_mod_plus_full, Z.mod_small.
      + change INT_MODULUS with (2 * INT_HALF). ring.
      + change INT_MODULUS with (2 * INT_HALF) in *. lia.
    - unfold in_size_t. lia. }
  split; [exact Hcount |]. split; [lia |].
  rewrite GetNumNZElements_valueOf, Hcount. f_equal. unfold to_size_t.
  replace (GetNumRows m * GetBlockSize m - INT_MODULUS)
    with (SIZE_MODULUS - (INT_MODULUS - GetNumRows m * GetBlockSize m)
          + (-1) * SIZE_MODULUS) by ring.
  rewrite Z_mod_plus_full. apply Z.mod_small.
  change INT_MODULUS with (2 * INT_HALF) in *. lia.
Qed.

End CacheSequences.

(** ** The buffer as a whole *)

Lemma congruent_of_eq (a b : Z) : a = b -> congruent a b.
Proof. intros ->. reflexivity. Qed.

(** As [size_t_eq], for sides one of which occurs inside the other. *)
Ltac size_t_ring :=
  unfold ptr_add;
  apply congruent_to_size_t;
  rewrite ?to_size_t_congruent;
  apply congruent_of_eq; ring.

Section BufferFacts.

Variable sizeof_ElemType : Z.

Implicit Types (m : GPUSparseMatrix) (f : MatrixFormat).

Local Abbreviation sE := sizeof_ElemType.
Local Abbreviation sI := sizeof_GPUSPARSE_INDEX_TYPE.

Lemma MajorIndexCount_nonneg numRows numCols numNZ f :
  0 <= numRows -> 0 <= numCols -> 0 <= numNZ ->
  0 <= MajorIndexCount numRows numCols numNZ f.
Proof. intros. destruct f; assumption. Qed.

Lemma SecondaryIndexCount_nonneg numRows numCols numNZ f :
  0 <= numRows -> 0 <= numCols -> 0 <= numNZ ->
  0 <= SecondaryIndexCount numRows numCols numNZ f.
Proof.
  intros. destruct f; unfold SecondaryIndexCount; cbn [MatrixFormat_eqb];
    try assumption; apply to_size_t_range.
Qed.

Lemma MajorIndexCount_mono numRows numCols n n' f :
  n <= n' ->
  MajorIndexCount numRows numCols n f <= MajorIndexCount numRows numCols n' f.
Proof.
  intros. destruct f; unfold MajorIndexCount; cbn [MatrixFormat_eqb]; lia.
Qed.

Lemma SecondaryIndexCount_mono numRows numCols n n' f :
  n <= n' ->
  SecondaryIndexCount numRows numCols n f
  <= SecondaryIndexCount numRows numCols n' f.
Proof.
  intros. destruct f; unfold SecondaryIndexCount; cbn [MatrixFormat_eqb]; lia.
Qed.

(** The secondary index position before reduction to an address. *)
Lemma SecondaryIndexLocation_sum m :
  SecondaryIndexLocation sE m
  = to_size_t
      (Buffer m + sE * GetSizeAllocated m
       + sI * MajorIndexCount (GetNumRows m) (GetNumCols m)
                (GetSizeAllocated m) (GetFormat m)
       + sI * (if isBlock (GetFormat m) then 0 else m_sliceViewOffset m)).
Proof.
  unfold SecondaryIndexLocation, MajorIndexLocation, MajorIndexCount.
  destruct (GetFormat m); cbn [MatrixFormat_eqb isBlock orb]; size_t_ring.
Qed.

(** The buffer size as fixed index bytes plus bytes per non-zero. *)
Lemma BufferSizeNeeded_fixed_plus_nz numRows numCols numNZ f :
  isLayoutFormat f = true ->
  BufferSizeNeeded sE numRows numCols numNZ f
  = to_size_t (fixedIndexBytes numRows numCols f + bytesPerNZ sE f * numNZ).
Proof.
  intros Hf.
  destruct f; try discriminate Hf;
    unfold BufferSizeNeeded, bytesPerNZ, fixedIndexBytes, MajorIndexCount,
      SecondaryIndexCount;
    cbn [MatrixFormat_eqb isBlock orb]; size_t_ring.
Qed.

Lemma bytesPerNZ_pos f : 0 < sE -> 0 < bytesPerNZ sE f.
Proof.
  intros. unfold bytesPerNZ, sizeof_GPUSPARSE_INDEX_TYPE.
  destruct (isBlock f); lia.
Qed.

(** X6. For a matrix that is not a slice view (or has a block format) and
    whose buffer ends below the top of the address space, the three arrays
    tile the buffer: the major index starts [GetSizeElemAllocated()] bytes
    after [Buffer()], the secondary index starts right after
    [MajorIndexCount] index slots, and it ends [BufferSizeNeeded] bytes after
    [Buffer()], the counts and the size being those of [sizeAllocated]
    non-zeros. *)
Theorem index_arrays_tile_the_buffer (m : GPUSparseMatrix) :
  0 <= Buffer m ->
  0 <= sizeof_ElemType ->
  0 <= GetSizeAllocated m ->
  0 <= GetNumRows m ->
  0 <= GetNumCols m ->
  isBlock (GetFormat m) = true \/ m_sliceViewOffset m = 0 ->
  Buffer m + sizeof_ElemType * GetSizeAllocated m
  + sizeof_GPUSPARSE_INDEX_TYPE
    * (MajorIndexCount (GetNumRows m) (GetNumCols m) (GetSizeAllocated m)
         (GetFormat m)
       + SecondaryIndexCount (GetNumRows m) (GetNumCols m)
           (GetSizeAllocated m) (GetFormat m))
  < SIZE_MODULUS ->
  MajorIndexLocation sizeof_ElemType m
  = Buffer m + GetSizeElemAllocated sizeof_ElemType m
  /\ SecondaryIndexLocation sizeof_ElemType m
     = MajorIndexLocation sizeof_ElemType m
       + sizeof_GPUSPARSE_INDEX_TYPE
         * MajorIndexCount (GetNumRows m) (GetNumCols m) (GetSizeAllocated m)
             (GetFormat m)
  /\ SecondaryIndexLocation sizeof_ElemType m + SecondaryIndexSize m
     = Buffer m
       + BufferSizeNeeded sizeof_ElemType (GetNumRows m) (GetNumCols m)
           (GetSizeAllocated m) (GetFormat m)
  /\ Buffer m <= MajorIndexLocation sizeof_ElemType m
     <= SecondaryIndexLocation sizeof_ElemType m.
Proof.
  intros HB HsE HSA Hr Hc Hview Hfit.
  pose proof (MajorIndexCount_nonneg _ _ _ (GetFormat m) Hr Hc HSA) as Hmaj.
  pose proof (SecondaryIndexCount_nonneg _ _ _ (GetFormat m) Hr Hc HSA) as Hsec.
  pose proof (Z.mul_nonneg_nonneg _ _ HsE HSA) as Hval.
  assert (Hoff : (if isBlock (GetFormat m) then 0 else m_sliceViewOffset m) = 0)
    by (destruct Hview as [-> | ->]; [| destruct (isBlock _)]; reflexivity).
  assert (HM : MajorIndexLocation sE m = Buffer m + sE * GetSizeAllocated m).
  { unfold MajorIndexLocation, ptr_add. apply to_size_t_small.
    unfold in_size_t, sizeof_GPUSPARSE_INDEX_TYPE in *. lia. }
  assert (HG : GetSizeElemAllocated sE m = sE * GetSizeAllocated m).
  { unfold GetSizeElemAllocated. apply to_size_t_small.
    unfold in_size_t, sizeof_GPUSPARSE_INDEX_TYPE in *. lia. }
  assert (HS : SecondaryIndexLocation sE m
               = Buffer m + sE * GetSizeAllocated m
                 + sI * MajorIndexCount (GetNumRows m) (GetNumCols m)
                          (GetSizeAllocated m) (GetFormat m)).
  { rewrite SecondaryIndexLocation_sum, Hoff, Z.mul_0_r, Z.add_0_r.
    apply to_size_t_small.
    unfold in_size_t, sizeof_GPUSPARSE_INDEX_TYPE in *. lia. }
  assert (HSS : SecondaryIndexSize m
                = sI * SecondaryIndexCount (GetNumRows m) (GetNumCols m)
                         (GetSizeAllocated m) (GetFormat m)).
  { unfold SecondaryIndexSize, SecondaryIndexCount_this.
    rewrite Z.mul_comm. apply to_size_t_small.
    unfold in_size_t, sizeof_GPUSPARSE_INDEX_TYPE in *. lia. }
  assert (HBS : BufferSizeNeeded sE (GetNumRows m) (GetNumCols m)
                  (GetSizeAllocated m) (GetFormat m)
                = sE * GetSizeAllocated m
                  + sI * (MajorIndexCount (GetNumRows m) (GetNumCols m)
                            (GetSizeAllocated m) (GetFormat m)
                          + SecondaryIndexCount (GetNumRows m) (GetNumCols m)
                              (GetSizeAllocated m) (GetFormat m))).
  { rewrite BufferSizeNeeded_unfolded. apply to_size_t_small.
    unfold in_size_t, sizeof_GPUSPARSE_INDEX_TYPE in *. lia. }
  rewrite HM, HG, HS, HSS, HBS.
  unfold sizeof_GPUSPARSE_INDEX_TYPE in *.
  split; [reflexivity |]. split; [reflexivity |]. split; [ring |]. lia.
Qed.

(** X7. For a buffer size that covers the fixed index bytes of a CSR, CSC,
    SparseBlockCol or SparseBlockRow layout,
    [ComputeMaxNZElemFromBufferSize] returns the largest count that fits:
    [BufferSizeNeeded] of the count is at most the buffer size, and one
    non-zero more would need more bytes than the buffer has. *)
Theorem ComputeMaxNZElemFromBufferSize_is_largest_fit
  (numRows numCols bufferSize : Z) (f : MatrixFormat) :
  0 < sizeof_ElemType ->
  in_size_t (sizeof_GPUSPARSE_INDEX_TYPE + sizeof_ElemType) ->
  isLayoutFormat f = true ->
  0 <= fixedIndexBytes numRows numCols f <= bufferSize ->
  bufferSize < SIZE_MODULUS ->
  exists k,
    ComputeMaxNZElemFromBufferSize sizeof_ElemType numRows numCols bufferSize f
    = Ok k
    /\ 0 <= k
    /\ BufferSizeNeeded sizeof_ElemType numRows numCols k f <= bufferSize
    /\ bufferSize
       < fixedIndexBytes numRows numCols f
         + bytesPerNZ sizeof_ElemType f * (k + 1).
Proof.
  intros HsE Hsum Hf Hfixed Hb.
  pose proof (bytesPerNZ_pos f HsE) as Hpos.
  exists ((bufferSize - fixedIndexBytes numRows numCols f) / bytesPerNZ sE f).
  assert (Hsmall : to_size_t (bufferSize - fixedIndexBytes numRows numCols f)
                   = bufferSize - fixedIndexBytes numRows numCols f)
    by (apply to_size_t_small; unfold in_size_t; lia).
  pose proof (Z.mul_div_le (bufferSize - fixedIndexBytes numRows numCols f)
                _ Hpos) as Hle.
  pose proof (Z.mul_succ_div_gt
                (bufferSize - fixedIndexBytes numRows numCols f) _ Hpos)
    as Hgt.
  assert (Hk : 0 <= (bufferSize - fixedIndexBytes numRows numCols f)
                    / bytesPerNZ sE f)
    by (apply Z.div_pos; lia).
  split.
  { rewrite (ComputeMaxNZElemFromBufferSize_quotient sE _ _ _ f Hf Hsum).
    rewrite Hsmall. reflexivity. }
  split; [exact Hk |]. split.
  - rewrite (BufferSizeNeeded_fixed_plus_nz _ _ _ f Hf).
    rewrite to_size_t_small; [lia |].
    unfold in_size_t. split; [nia | lia].
  - unfold Z.succ in Hgt. lia.
Qed.


(** X13. Without overflow, a larger non-zero count never needs a smaller
    buffer: [BufferSizeNeeded] is monotone in the count as long as the bytes
    of the larger count fit [size_t]. *)
Theorem BufferSizeNeeded_monotone (numRows numCols n n' : Z)
  (f : MatrixFormat) :
  0 <= sizeof_ElemType ->
  0 <= numRows ->
  0 <= numCols ->
  0 <= n <= n' ->
  sizeof_ElemType * n'
  + sizeof_GPUSPARSE_INDEX_TYPE
    * (MajorIndexCount numRows numCols n' f
       + SecondaryIndexCount numRows numCols n' f)
  < SIZE_MODULUS ->
  BufferSizeNeeded sizeof_ElemType numRows numCols n f
  <= BufferSizeNeeded sizeof_ElemType numRows numCols n' f.
Proof.
  intros HsE Hr Hc Hn Hfit.
  assert (Hn0 : 0 <= n) by lia.
  assert (Hn'0 : 0 <= n') by lia.
  pose proof (MajorIndexCount_nonneg _ _ _ f Hr Hc Hn0) as Hmaj.
  pose proof (SecondaryIndexCount_nonneg _ _ _ f Hr Hc Hn0) as Hsec.
  pose proof (MajorIndexCount_mono numRows numCols n n' f (proj2 Hn)) as Hmm.
  pose proof (SecondaryIndexCount_mono numRows numCols n n' f (proj2 Hn))
    as Hsm.
  pose proof (Z.mul_nonneg_nonneg _ _ HsE Hn0) as Hv.
  pose proof (Z.mul_le_mono_nonneg_l n n' sE HsE (proj2 Hn)) as Hvm.
  rewrite !BufferSizeNeeded_unfolded.
  rewrite !to_size_t_small;
    unfold in_size_t, sizeof_GPUSPARSE_INDEX_TYPE in *; lia.
Qed.


(** X10. In the secondary index of a view at offset [k] (any format but the
    block formats), entry [j] lies where entry [k + j] of the matrix without
    offset lies. *)
Theorem slice_view_entry_address (m : GPUSparseMatrix) (k j : Z) :
  isBlock (GetFormat m) = false ->
  ptr_add (SecondaryIndexLocation sizeof_ElemType (set_m_sliceViewOffset k m))
    sizeof_GPUSPARSE_INDEX_TYPE j
  = ptr_add
      (SecondaryIndexLocation sizeof_ElemType (set_m_sliceViewOffset 0 m))
      sizeof_GPUSPARSE_INDEX_TYPE (k + j).
Proof.
  intros Hf.
  rewrite !SecondaryIndexLocation_sum.
  cbn [set_m_sliceViewOffset GetFormat GetNumCols GetNumRows GetSizeAllocated
         m_sliceViewOffset Buffer].
  rewrite Hf. size_t_ring.
Qed.

End BufferFacts.

(** X5. [MajorIndexCount()] and [MajorIndexSize()] go through [NzCount()]
    whatever the format.  On a SparseBlockRow matrix, whose major count is
    [numRows], they return it when a count is cached and throw
    "not implemented" when the cache is invalid. *)
Theorem MajorIndexCount_of_block_row_matrix (m : GPUSparseMatrix) :
  GetFormat m = matrixFormatSparseBlockRow ->
  MajorIndexCount_this m
  = (if HasCachedNzCount m
     then Returns (GetNumRows m) m
     else Throws NotImplemented m)
  /\ MajorIndexSize m
     = (if HasCachedNzCount m
        then Returns (to_size_t (sizeof_GPUSPARSE_INDEX_TYPE * GetNumRows m)) m
        else Throws NotImplemented m).
Proof.
  intros Hf.
  assert (Hcount : MajorIndexCount_this m
                   = (if HasCachedNzCount m
                      then Returns (GetNumRows m) m
                      else Throws NotImplemented m)).
  { unfold MajorIndexCount_this, bind. destruct (HasCachedNzCount m) eqn:Hc.
    - rewrite (NzCount_valid m Hc). unfold this, ret, MajorIndexCount.
      rewrite Hf. reflexivity.
    - assert (Hfetch : FetchNzCount m = Throws NotImplemented m)
        by (unfold FetchNzCount; rewrite Hf; reflexivity).
      rewrite (NzCount_invalid_throws m _ _ Hc Hfetch). reflexivity. }
  split; [exact Hcount |].
  unfold MajorIndexSize, bind. rewrite Hcount.
  destruct (HasCachedNzCount m); reflexivity.
Qed.

(** ** The further properties on the sample matrices *)

Lemma NzCount_second_call_is_cached_witness :
  NzCount sampleCSC
  = Returns 4
      (set_m_cachedNzCount 4 (count_deviceRead (count_deviceRead sampleCSC)))
  /\ 4 <> INVALID_NZ_COUNT
  /\ NzCount
       (set_m_cachedNzCount 4 (count_deviceRead (count_deviceRead sampleCSC)))
     = Returns 4
         (set_m_cachedNzCount 4 (count_deviceRead (count_deviceRead sampleCSC))).
Proof.
  assert (H1 : NzCount sampleCSC
               = Returns 4
                   (set_m_cachedNzCount 4
                      (count_deviceRead (count_deviceRead sampleCSC))))
    by reflexivity.
  assert (H2 : 4 <> INVALID_NZ_COUNT) by discriminate.
  split; [exact H1 |]. split; [exact H2 |].
  apply (proj2 (NzCount_second_call_is_cached sampleCSC 4 _ H1 H2)).
Defined.

Lemma NzCount_sentinel_is_fetched_every_time_witness :
  NzCount sampleBlockColWide
  = Returns INVALID_NZ_COUNT
      (set_m_cachedNzCount INVALID_NZ_COUNT sampleBlockColWide)
  /\ HasCachedNzCount
       (set_m_cachedNzCount INVALID_NZ_COUNT sampleBlockColWide) = false
  /\ valueOf
       (NzCount (set_m_cachedNzCount INVALID_NZ_COUNT sampleBlockColWide))
     = Ok INVALID_NZ_COUNT.
Proof.
  assert (H1 : NzCount sampleBlockColWide
               = Returns INVALID_NZ_COUNT
                   (set_m_cachedNzCount INVALID_NZ_COUNT sampleBlockColWide))
    by (vm_compute; reflexivity).
  pose proof (NzCount_sentinel_is_fetched_every_time sampleBlockColWide _ H1)
    as (_ & Hc & _ & Hagain).
  split; [exact H1 |]. split; [exact Hc | exact Hagain].
Defined.

Lemma UpdateCachedNzCount_then_NzCount_witness :
  4 <> INVALID_NZ_COUNT
  /\ (UpdateCachedNzCount 4 true ;;; NzCount) sampleCSC
     = Returns 4 (set_m_cachedNzCount 4 sampleCSC).
Proof.
  assert (H : 4 <> INVALID_NZ_COUNT) by discriminate.
  split; [exact H |].
  apply (UpdateCachedNzCount_then_NzCount 4 true sampleCSC H).
Defined.


Lemma NzCount_of_wide_block_matrix_witness :
  GetFormat sampleBlockColLarge = matrixFormatSparseBlockCol
  /\ HasCachedNzCount sampleBlockColLarge = false
  /\ INT_HALF
     <= GetNumRows sampleBlockColLarge * GetBlockSize sampleBlockColLarge
     < INT_MODULUS
  /\ valueOf (NzCount sampleBlockColLarge) = Ok (2500000000 - INT_MODULUS).
Proof.
  assert (H : INT_HALF
              <= GetNumRows sampleBlockColLarge
                 * GetBlockSize sampleBlockColLarge
              < INT_MODULUS) by concrete.
  split; [reflexivity |]. split; [reflexivity |]. split; [exact H |].
  apply (proj1 (NzCount_of_wide_block_matrix sampleBlockColLarge eq_refl
                  eq_refl H)).
Defined.

Lemma MajorIndexCount_of_block_row_matrix_witness :
  GetFormat sampleBlockRow = matrixFormatSparseBlockRow
  /\ MajorIndexCount_this sampleBlockRow = Throws NotImplemented sampleBlockRow
  /\ MajorIndexCount_this (set_m_cachedNzCount 6 sampleBlockRow)
     = Returns 5 (set_m_cachedNzCount 6 sampleBlockRow).
Proof.
  split; [reflexivity |]. split.
  - apply (proj1 (MajorIndexCount_of_block_row_matrix sampleBlockRow eq_refl)).
  - apply (proj1 (MajorIndexCount_of_block_row_matrix
                    (set_m_cachedNzCount 6 sampleBlockRow) eq_refl)).
Defined.

Lemma index_arrays_tile_the_buffer_witness :
  MajorIndexLocation sizeof_float sampleCSC = 4096 + 16
  /\ SecondaryIndexLocation sizeof_float sampleCSC = 4112 + 16
  /\ SecondaryIndexLocation sizeof_float sampleCSC + SecondaryIndexSize sampleCSC
     = 4096 + BufferSizeNeeded sizeof_float 3 3 4 matrixFormatSparseCSC.
Proof.
  assert (H0 : 0 <= Buffer sampleCSC) by concrete.
  assert (H1 : 0 <= sizeof_float) by concrete.
  assert (H2 : 0 <= GetSizeAllocated sampleCSC) by concrete.
  assert (H3 : 0 <= GetNumRows sampleCSC) by concrete.
  assert (H4 : 0 <= GetNumCols sampleCSC) by concrete.
  assert (H5 : Buffer sampleCSC + sizeof_float * GetSizeAllocated sampleCSC
               + sizeof_GPUSPARSE_INDEX_TYPE
                 * (MajorIndexCount (GetNumRows sampleCSC)
                      (GetNumCols sampleCSC) (GetSizeAllocated sampleCSC)
                      (GetFormat sampleCSC)
                    + SecondaryIndexCount (GetNumRows sampleCSC)
                        (GetNumCols sampleCSC) (GetSizeAllocated sampleCSC)
                        (GetFormat sampleCSC))
               < SIZE_MODULUS) by concrete.
  pose proof (index_arrays_tile_the_buffer sizeof_float sampleCSC H0 H1 H2 H3
                H4 (or_intror eq_refl) H5) as (Ha & Hb & Hc & _).
  split; [exact Ha |]. split; [exact Hb | exact Hc].
Defined.

Lemma ComputeMaxNZElemFromBufferSize_is_largest_fit_witness :
  exists k,
    ComputeMaxNZElemFromBufferSize sizeof_float 3 3 50 matrixFormatSparseCSC
    = Ok k
    /\ 0 <= k
    /\ BufferSizeNeeded sizeof_float 3 3 k matrixFormatSparseCSC <= 50
    /\ 50 < fixedIndexBytes 3 3 matrixFormatSparseCSC
            + bytesPerNZ sizeof_float matrixFormatSparseCSC * (k + 1).
Proof.
  assert (H1 : 0 < sizeof_float) by concrete.
  assert (H2 : in_size_t (sizeof_GPUSPARSE_INDEX_TYPE + sizeof_float))
    by concrete.
  assert (H3 : 0 <= fixedIndexBytes 3 3 matrixFormatSparseCSC <= 50)
    by concrete.
  assert (H4 : 50 < SIZE_MODULUS) by concrete.
  apply (ComputeMaxNZElemFromBufferSize_is_largest_fit sizeof_float 3 3 50
           matrixFormatSparseCSC H1 H2 eq_refl H3 H4).
Defined.


Lemma BufferSizeNeeded_monotone_witness :
  0 <= 4 <= 8
  /\ BufferSizeNeeded sizeof_float 3 3 4 matrixFormatSparseCSC
     <= BufferSizeNeeded sizeof_float 3 3 8 matrixFormatSparseCSC.
Proof.
  assert (H0 : 0 <= sizeof_float) by concrete.
  assert (H1 : 0 <= 3) by concrete.
  assert (H2 : 0 <= 4 <= 8) by concrete.
  assert (H3 : sizeof_float * 8
               + sizeof_GPUSPARSE_INDEX_TYPE
                 * (MajorIndexCount 3 3 8 matrixFormatSparseCSC
                    + SecondaryIndexCount 3 3 8 matrixFormatSparseCSC)
               < SIZE_MODULUS) by concrete.
  split; [exact H2 |].
  apply (BufferSizeNeeded_monotone sizeof_float 3 3 4 8 matrixFormatSparseCSC
           H0 H1 H1 H2 H3).
Defined.

Lemma slice_view_entry_address_witness :
  isBlock (GetFormat sampleCSC) = false
  /\ ptr_add
       (SecondaryIndexLocation sizeof_float (set_m_sliceViewOffset 1 sampleCSC))
       sizeof_GPUSPARSE_INDEX_TYPE 0
     = ptr_add
         (SecondaryIndexLocation sizeof_float
            (set_m_sliceViewOffset 0 sampleCSC))
         sizeof_GPUSPARSE_INDEX_TYPE (1 + 0).
Proof.
  split; [reflexivity |].
  apply (slice_view_entry_address sizeof_float sampleCSC 1 0 eq_refl).
Defined.

Lemma ComputeMaxNZElemFromBufferSize_short_after_overflow_witness :
  SIZE_MODULUS <= bytesPerNZ sizeof_float matrixFormatSparseBlockCol * 2 ^ 62
  /\ ComputeMaxNZElemFromBufferSize sizeof_float 1 1
       (BufferSizeNeeded sizeof_float 1 1 (2 ^ 62) matrixFormatSparseBlockCol)
       matrixFormatSparseBlockCol
     = Ok 0
  /\ 0 < 2 ^ 62.
Proof.
  assert (H1 : 0 < sizeof_float) by concrete.
  assert (H2 : in_size_t (sizeof_GPUSPARSE_INDEX_TYPE + sizeof_float))
    by concrete.
  assert (H3 : SIZE_MODULUS
               <= bytesPerNZ sizeof_float matrixFormatSparseBlockCol * 2 ^ 62)
    by concrete.
  assert (H4 : ComputeMaxNZElemFromBufferSize sizeof_float 1 1
                 (BufferSizeNeeded sizeof_float 1 1 (2 ^ 62)
                    matrixFormatSparseBlockCol)
                 matrixFormatSparseBlockCol
               = Ok 0) by (vm_compute; reflexivity).
  split; [exact H3 |]. split; [exact H4 |].
  apply (ComputeMaxNZElemFromBufferSize_short_after_overflow sizeof_float 1 1
           (2 ^ 62) matrixFormatSparseBlockCol 0 H1 H2 eq_refl H3 H4).
Defined.
